(** * KerasSmartModel: a shallow embedding of
      [eznet_keras/models/keras_smart_module.py]

    The class wraps a Keras model: its constructor reads a dictionary of
    hyperparameters into attributes and assembles the list of training
    callbacks; its methods forward to the wrapped network [self.net] and
    to the helper functions of [eznet_keras.utils].

    Python values are an inductive type with Python's truth test and
    [int()]; dictionaries with string keys are [gmap string pyval];
    exceptions are the [Raise] case of [result]; the methods that change
    the object or the network are state transformers on a [world]. *)

From Stdlib Require Import ZArith String Ascii List Lia.
From Stdlib Require Import Floats.SpecFloat.
From stdpp Require Import gmap strings list fin_maps.

Set Warnings "-register-all".
Local Open Scope string_scope.
Local Open Scope Z_scope.

(** ** Python values *)

Module Py.

(** The values a hyperparameter can hold.  Floats are IEEE binary64 in the
    Standard Library's [spec_float]; [VObject] is a framework object (a
    Keras loss, metric or optimizer instance) of which only the identity
    is known. *)
Inductive pyval : Type :=
  | VNone
  | VBool (b : bool)
  | VInt (z : Z)
  | VFloat (f : spec_float)
  | VStr (s : string)
  | VList (l : list pyval)
  | VDict (d : gmap string pyval)
  | VObject (name : string).

Abbreviation dict := (gmap string pyval).

Inductive exn : Type :=
  | TypeError
  | ValueError
  | OverflowError
  | AttributeError
  | IndexError
  | KeyError (key : string)
  | FrameworkError (msg : string).

Inductive result (A : Type) : Type :=
  | Ok (a : A)
  | Raise (e : exn).
Arguments Ok {A} a.
Arguments Raise {A} e.

Definition bind {A B : Type} (r : result A) (k : A -> result B) : result B :=
  match r with
  | Ok a => k a
  | Raise e => Raise e
  end.

Definition prec : Z := 53.
Definition emax : Z := 1024.

(** The binary64 value of the decimal literal [num / den], both exactly
    representable: one correctly rounded division. *)
Definition float_lit (num den : Z) : spec_float :=
  SFdiv prec emax (binary_normalize prec emax num 0 false)
                  (binary_normalize prec emax den 0 false).

(** [bool(v)]: the test behind [if v], [not v] and [v if c else w]. *)
Definition truthy (v : pyval) : bool :=
  match v with
  | VNone => false
  | VBool b => b
  | VInt z => negb (Z.eqb z 0)
  | VFloat (S754_zero _) => false
  | VFloat _ => true
  | VStr s => negb (Nat.eqb (String.length s) 0)
  | VList l => negb (Nat.eqb (List.length l) 0)
  | VDict d => negb (Nat.eqb (size d) 0)
  | VObject _ => true
  end.

(** [d.get(k)]: the value under [k], [None] when the key is missing. *)
Definition get (d : dict) (k : string) : pyval :=
  match d !! k with
  | Some v => v
  | None => VNone
  end.

(** [d[k]]: the value under [k], [KeyError] when the key is missing. *)
Definition getitem (d : dict) (k : string) : result pyval :=
  match d !! k with
  | Some v => Ok v
  | None => Raise (KeyError k)
  end.

(** [k in d]. *)
Definition contains (d : dict) (k : string) : bool :=
  match d !! k with
  | Some _ => true
  | None => false
  end.

(** *** [int()] *)

(** [int(f)]: truncation toward zero. *)
Definition int_of_float (f : spec_float) : result Z :=
  match f with
  | S754_zero _ => Ok 0
  | S754_infinity _ => Raise OverflowError
  | S754_nan => Raise ValueError
  | S754_finite s m e =>
      let a := Z.shiftl (Z.pos m) e in
      Ok (if s then - a else a)
  end.

(** [int(v)].  On text the outcome is the interpreter's: which strings it
    reads (digits and spaces outside ASCII, the limit on the number of
    digits) differs between Python versions and settings, so the reader of
    text is an argument. *)
Definition int (of_str : string -> result Z) (v : pyval) : result Z :=
  match v with
  | VInt z => Ok z
  | VBool b => Ok (if b then 1 else 0)
  | VFloat f => int_of_float f
  | VStr s => of_str s
  | VNone | VList _ | VDict _ | VObject _ => Raise TypeError
  end.

End Py.

Export Py.

(** ** A reader of decimal text

    One reader to run the examples with: ASCII text in base ten, with the
    blanks (tab to carriage return, and the space) stripped at both ends, an
    optional sign, and single underscores between digits.  The theorems
    hold for every reader. *)
Module Reader.

Definition is_space (c : ascii) : bool :=
  let n := Z.of_nat (nat_of_ascii c) in
  ((9 <=? n) && (n <=? 13)) || (n =? 32).

Definition digit_of (c : ascii) : option Z :=
  let n := Z.of_nat (nat_of_ascii c) in
  if (48 <=? n) && (n <=? 57) then Some (n - 48) else None.

Fixpoint lstrip (s : list ascii) : list ascii :=
  match s with
  | c :: r => if is_space c then lstrip r else s
  | [] => []
  end.

Definition strip (s : list ascii) : list ascii :=
  rev (lstrip (rev (lstrip s))).

(** Decimal digits, a single underscore allowed between two digits. *)
Fixpoint digits_value (acc : Z) (after_digit : bool) (s : list ascii) : option Z :=
  match s with
  | [] => if after_digit then Some acc else None
  | c :: r =>
      match digit_of c with
      | Some d => digits_value (10 * acc + d) true r
      | None =>
          if Ascii.eqb c "_"%char && after_digit
          then digits_value acc false r
          else None
      end
  end.

Definition read_decimal (s : string) : result Z :=
  let body := strip (list_ascii_of_string s) in
  let signed :=
    match body with
    | c :: r =>
        if Ascii.eqb c "-"%char then (true, r)
        else if Ascii.eqb c "+"%char then (false, r)
        else (false, body)
    | [] => (false, body)
    end in
  match digits_value 0 false (snd signed) with
  | Some n => Ok (if fst signed then - n else n)
  | None => Raise ValueError
  end.

End Reader.

Notation "x <- r ;; k" := (bind r (fun x => k))
  (at level 100, r at next level, right associativity).

(** ** The framework and the helpers of [eznet_keras.utils] *)

(** A callback object, identified by its class and the arguments it was
    constructed with.  [EarlyStopping] and [ModelCheckpoint] are the
    classes of [tf.keras.callbacks]; [GarbageCollectionCallback] and
    [EarlyStopAtCriteria] come from [eznet_keras.utils]. *)
Inductive callback : Type :=
  | GarbageCollectionCallback
  | EarlyStopping (monitor : string) (mode : string) (patience : pyval)
  | ModelCheckpoint (filepath : pyval) (monitor : string) (verbose : Z)
                    (save_best_only : bool) (mode : string)
  | EarlyStopAtCriteria (monitor mode value : pyval).

(** What the class takes from outside this file: the interpreter's [int]
    on text, the Keras network behind [self.net], arrays with a [shape], the
    [History] object, and the helper functions imported by
    [from ..utils import *].  A helper receives the network, may change it
    in place and may raise: it maps the network to an outcome and the
    network afterwards. *)
Class Framework : Type := {
  int_of_str : string -> result Z;
  Net : Type;
  Tensor : Type;
  History : Type;
  shape : Tensor -> list Z;
  history_of : History -> pyval;
  Sequential : Net;
  net_call : Tensor -> list pyval -> list (string * pyval) -> Net -> result Tensor * Net;
  net_summary : Net -> result pyval * Net;
  compile_keras_model :
    Z -> pyval -> pyval -> pyval -> pyval -> pyval -> pyval -> option Z ->
    Net -> result unit * Net;
  fit_keras_model :
    Tensor -> Tensor -> option Tensor -> option Tensor ->
    Z -> pyval -> list callback -> Z -> list (string * pyval) ->
    Net -> result History * Net;
  save_keras_model : pyval -> pyval -> dict -> Net -> result unit * Net;
  export_keras_model : pyval -> Net -> result unit * Net;
  plot_keras_model_history : pyval -> pyval -> pyval -> pyval -> pyval -> result pyval
}.

(** ** The class *)

Section KerasSmartModel.

Context `{FW : Framework}.

(** The instance attributes set by the constructor. *)
Record KerasSmartModel : Type := {
  hparams : dict;
  _batch_size : Z;
  _loss_function : pyval;
  _metrics_list : pyval;
  _optimizer : pyval;
  _optimizer_params : pyval;
  _early_stopping_patience_epochs : pyval;
  _learning_rate : pyval;
  _exponential_decay_rate : pyval;
  _validation_data : pyval;
  _epochs : pyval;
  _l2_reg : pyval;
  history : option History;
  batch_input_shape : Z * Z;
  batch_output_shape : Z * Z;
  _callbacks : list callback;
  _es : option callback;
  _chkpt : pyval;
  _chk : option callback;
  early_stopping_monitor : pyval;
  early_stopping_mode : pyval;
  early_stopping_value : pyval;
  _es_crit : option callback;
  net : Net
}.

(** The class attribute [sample_hparams]. *)
Definition sample_hparams : dict :=
  <["model_name" := VStr "KerasSmartModel"]> (
  <["l2_reg" := VFloat (float_lit 1 10000)]> (
  <["batch_size" := VInt 16]> (
  <["epochs" := VInt 2]> (
  <["validation_data" := VFloat (float_lit 1 10)]> (
  <["early_stopping_patience_epochs" := VInt 10]> (
  <["learning_rate" := VFloat (float_lit 1 10000)]> (
  <["exponential_decay_rate" := VFloat (float_lit 99 100)]> (
  <["loss_function" := VStr "categorical_crossentropy"]> (
  <["loss_function_params" := VNone]> (
  <["metrics" := VList [VStr "accuracy"]]> (
  <["optimizer" := VStr "Adam"]> (
  <["optimizer_params" := VNone]> (
  <["checkpoint_path" := VNone]> (
  <["early_stopping_monitor" := VStr "loss"]> (
  <["early_stopping_mode" := VStr "min"]> (
  <["early_stopping_value" := VFloat (float_lit 1 1000000)]> ∅)))))))))))))))).

(** [o if o else None] followed by [if o: callbacks.append(o)]: a callback
    object is always true. *)
Definition append_if (o : option callback) (l : list callback) : list callback :=
  match o with
  | Some c => l ++ [c]
  | None => l
  end.

(** [__init__] once [hparams] is known to be a dictionary (lines 78-115). *)
Definition init_from (hparams : dict) : result KerasSmartModel :=
  batch_size <-
    (if truthy (get hparams "batch_size")
     then (v <- getitem hparams "batch_size" ;; int int_of_str v)
     else Ok 32) ;;
  let loss_function := get hparams "loss_function" in
  let metrics_list := get hparams "metrics" in
  let optimizer := get hparams "optimizer" in
  let optimizer_params := get hparams "optimizer_params" in
  let patience := get hparams "early_stopping_patience_epochs" in
  let learning_rate := get hparams "learning_rate" in
  let decay_rate := get hparams "exponential_decay_rate" in
  let validation_data := get hparams "validation_data" in
  let epochs := get hparams "epochs" in
  let l2_reg :=
    if truthy (get hparams "l2_reg") then get hparams "l2_reg"
    else VFloat (S754_zero false) in
  let callbacks0 := [GarbageCollectionCallback] in
  let es :=
    if truthy patience
    then Some (EarlyStopping
                 (if contains hparams "validation_data" then "val_loss" else "loss")
                 "min" patience)
    else None in
  let callbacks1 := append_if es callbacks0 in
  let chkpt := get hparams "checkpoint_path" in
  let chk :=
    if truthy chkpt
    then Some (ModelCheckpoint chkpt
                 (if contains hparams "validation_data" then "val_loss" else "loss")
                 0 true "min")
    else None in
  let callbacks2 := append_if chk callbacks1 in
  let monitor := get hparams "early_stopping_monitor" in
  let mode := get hparams "early_stopping_mode" in
  let value := get hparams "early_stopping_value" in
  let es_crit :=
    if truthy monitor then Some (EarlyStopAtCriteria monitor mode value) else None in
  let callbacks3 := append_if es_crit callbacks2 in
  Ok {| hparams := hparams;
        _batch_size := batch_size;
        _loss_function := loss_function;
        _metrics_list := metrics_list;
        _optimizer := optimizer;
        _optimizer_params := optimizer_params;
        _early_stopping_patience_epochs := patience;
        _learning_rate := learning_rate;
        _exponential_decay_rate := decay_rate;
        _validation_data := validation_data;
        _epochs := epochs;
        _l2_reg := l2_reg;
        history := None;
        batch_input_shape := (batch_size, 1);
        batch_output_shape := (batch_size, 1);
        _callbacks := callbacks3;
        _es := es;
        _chkpt := chkpt;
        _chk := chk;
        early_stopping_monitor := monitor;
        early_stopping_mode := mode;
        early_stopping_value := value;
        _es_crit := es_crit;
        net := Sequential |}.

(** [KerasSmartModel(hparams)].  A false argument ([None], an empty
    dictionary) is replaced by [sample_hparams] (line 77); an argument that
    is true and not a dictionary has no [get]. *)
Definition __init__ (hparams : pyval) : result KerasSmartModel :=
  let hparams := if negb (truthy hparams) then VDict sample_hparams else hparams in
  match hparams with
  | VDict d => init_from d
  | _ => Raise AttributeError
  end.

(** *** Methods

    A method runs on the object and on the record of the calls it has made
    into the framework and the helpers, oldest first.  An exception leaves
    the changes made before it in place. *)

Inductive event : Type :=
  | NetCall (x : Tensor) (args : list pyval) (kwargs : list (string * pyval))
  | NetSummary
  | SuperGetConfig
  | CompileKerasModel (batch_size : Z)
      (learning_rate optimizer loss_function metrics_list
       optimizer_params exponential_decay_rate : pyval)
      (num_samples : option Z)
  | FitKerasModel (x_train y_train : Tensor) (x_val y_val : option Tensor)
      (batch_size : Z) (epochs : pyval) (callbacks : list callback)
      (verbose : Z) (kwargs : list (string * pyval))
  | SaveKerasModel (history : pyval) (saveto : pyval) (hparams : dict)
  | ExportKerasModel (export : pyval)
  | PlotKerasModelHistory (history metrics fig_title saveto close_after_finish : pyval).

Record world : Type := {
  self : KerasSmartModel;
  calls : list event
}.

Definition M (A : Type) : Type := world -> result A * world.

Definition ret {A : Type} (a : A) : M A := fun w => (Ok a, w).

Definition raise {A : Type} (e : exn) : M A := fun w => (Raise e, w).

Definition mbind {A B : Type} (m : M A) (k : A -> M B) : M B :=
  fun w =>
    match m w with
    | (Ok a, w') => k a w'
    | (Raise e, w') => (Raise e, w')
    end.

Definition lift {A : Type} (r : result A) : M A := fun w => (r, w).

Definition read {A : Type} (f : KerasSmartModel -> A) : M A :=
  fun w => (Ok (f (self w)), w).

Definition with_net (n : Net) (m : KerasSmartModel) : KerasSmartModel :=
  {| hparams := hparams m;
     _batch_size := _batch_size m;
     _loss_function := _loss_function m;
     _metrics_list := _metrics_list m;
     _optimizer := _optimizer m;
     _optimizer_params := _optimizer_params m;
     _early_stopping_patience_epochs := _early_stopping_patience_epochs m;
     _learning_rate := _learning_rate m;
     _exponential_decay_rate := _exponential_decay_rate m;
     _validation_data := _validation_data m;
     _epochs := _epochs m;
     _l2_reg := _l2_reg m;
     history := history m;
     batch_input_shape := batch_input_shape m;
     batch_output_shape := batch_output_shape m;
     _callbacks := _callbacks m;
     _es := _es m;
     _chkpt := _chkpt m;
     _chk := _chk m;
     early_stopping_monitor := early_stopping_monitor m;
     early_stopping_mode := early_stopping_mode m;
     early_stopping_value := early_stopping_value m;
     _es_crit := _es_crit m;
     net := n |}.

Definition with_history (h : option History) (m : KerasSmartModel) : KerasSmartModel :=
  {| hparams := hparams m;
     _batch_size := _batch_size m;
     _loss_function := _loss_function m;
     _metrics_list := _metrics_list m;
     _optimizer := _optimizer m;
     _optimizer_params := _optimizer_params m;
     _early_stopping_patience_epochs := _early_stopping_patience_epochs m;
     _learning_rate := _learning_rate m;
     _exponential_decay_rate := _exponential_decay_rate m;
     _validation_data := _validation_data m;
     _epochs := _epochs m;
     _l2_reg := _l2_reg m;
     history := h;
     batch_input_shape := batch_input_shape m;
     batch_output_shape := batch_output_shape m;
     _callbacks := _callbacks m;
     _es := _es m;
     _chkpt := _chkpt m;
     _chk := _chk m;
     early_stopping_monitor := early_stopping_monitor m;
     early_stopping_mode := early_stopping_mode m;
     early_stopping_value := early_stopping_value m;
     _es_crit := _es_crit m;
     net := net m |}.

(** A call that works on [self.net]: it is recorded, the network is
    replaced by the one the call leaves, the outcome is passed on. *)
Definition on_net {A : Type} (c : event) (f : Net -> result A * Net) : M A :=
  fun w =>
    let (r, n) := f (net (self w)) in
    (r, {| self := with_net n (self w); calls := calls w ++ [c] |}).

(** A call that does not touch the object. *)
Definition outside {A : Type} (c : event) (r : result A) : M A :=
  fun w => (r, {| self := self w; calls := calls w ++ [c] |}).

Definition set_history (h : History) : M unit :=
  fun w => (Ok tt, {| self := with_history (Some h) (self w); calls := calls w |}).

Notation "x <~ m ;; k" := (mbind m (fun x => k))
  (at level 100, m at next level, right associativity).

(** [return self.net(x, *args, **kwargs)] *)
Definition call (x : Tensor) (args : list pyval) (kwargs : list (string * pyval))
  : M Tensor :=
  on_net (NetCall x args kwargs) (net_call x args kwargs).

(** [return self.net.summary()] *)
Definition summary : M pyval :=
  on_net NetSummary net_summary.

(** [super(KerasSmartModel, self).get_config()] is the framework's; it is
    a parameter of [get_config]. *)
Variable super_get_config : KerasSmartModel -> result dict.

Definition get_config : M dict :=
  config <~ (fun w => outside SuperGetConfig (super_get_config (self w)) w) ;;
  hp <~ read hparams ;;
  ret (<["hparams" := VDict hp]> config).

(** [return cls(config['hparams'])] *)
Definition from_config (config : dict) : result KerasSmartModel :=
  v <- getitem config "hparams" ;;
  __init__ v.

Definition compile_model (num_samples : option Z) : M unit :=
  m <~ read id ;;
  on_net
    (CompileKerasModel (_batch_size m) (_learning_rate m) (_optimizer m)
       (_loss_function m) (_metrics_list m) (_optimizer_params m)
       (_exponential_decay_rate m) num_samples)
    (compile_keras_model (_batch_size m) (_learning_rate m) (_optimizer m)
       (_loss_function m) (_metrics_list m) (_optimizer_params m)
       (_exponential_decay_rate m) num_samples).

Definition fit_model (x_train y_train : Tensor) (x_val y_val : option Tensor)
    (verbose : Z) (kwargs : list (string * pyval)) : M (option History) :=
  m <~ read id ;;
  h <~ on_net
         (FitKerasModel x_train y_train x_val y_val
            (_batch_size m) (_epochs m) (_callbacks m) verbose kwargs)
         (fit_keras_model x_train y_train x_val y_val
            (_batch_size m) (_epochs m) (_callbacks m) verbose kwargs) ;;
  _ <~ set_history h ;;
  read history.

(** [self.history.history]: [None] has no attribute [history]. *)
Definition history_history : M pyval :=
  h <~ read history ;;
  match h with
  | Some h => ret (history_of h)
  | None => raise AttributeError
  end.

(** [x.shape[0]] *)
Definition shape0 (x : Tensor) : result Z :=
  match shape x with
  | n :: _ => Ok n
  | [] => Raise IndexError
  end.

Definition train_model (x_train y_train : Tensor) (x_val y_val : option Tensor)
    (verbose : Z) (saveto export : pyval) (kwargs : list (string * pyval)) : M unit :=
  N <~ lift (shape0 x_train) ;;
  _ <~ compile_model (Some N) ;;
  _ <~ fit_model x_train y_train x_val y_val verbose kwargs ;;
  _ <~ (if truthy saveto
        then (hh <~ history_history ;;
              hp <~ read hparams ;;
              on_net (SaveKerasModel hh saveto hp) (save_keras_model hh saveto hp))
        else ret tt) ;;
  _ <~ (if truthy export
        then on_net (ExportKerasModel export) (export_keras_model export)
        else ret tt) ;;
  ret tt.

(** The method has no [return]: the value of the helper is dropped. *)
Definition plot_history (metrics fig_title saveto close_after_finish : pyval) : M unit :=
  hh <~ history_history ;;
  _ <~ outside (PlotKerasModelHistory hh metrics fig_title saveto close_after_finish)
         (plot_keras_model_history hh metrics fig_title saveto close_after_finish) ;;
  ret tt.

(** *** Lifetime of an object: construction, then method calls *)

Inductive method : Type :=
  | DoCall (x : Tensor) (args : list pyval) (kwargs : list (string * pyval))
  | DoSummary
  | DoGetConfig
  | DoCompileModel (num_samples : option Z)
  | DoFitModel (x_train y_train : Tensor) (x_val y_val : option Tensor)
      (verbose : Z) (kwargs : list (string * pyval))
  | DoTrainModel (x_train y_train : Tensor) (x_val y_val : option Tensor)
      (verbose : Z) (saveto export : pyval) (kwargs : list (string * pyval))
  | DoPlotHistory (metrics fig_title saveto close_after_finish : pyval).

(** The world a method call leaves, whatever it returns or raises. *)
Definition run (c : method) (w : world) : world :=
  match c with
  | DoCall x args kwargs => snd (call x args kwargs w)
  | DoSummary => snd (summary w)
  | DoGetConfig => snd (get_config w)
  | DoCompileModel n => snd (compile_model n w)
  | DoFitModel x y xv yv verbose kwargs => snd (fit_model x y xv yv verbose kwargs w)
  | DoTrainModel x y xv yv verbose saveto export kwargs =>
      snd (train_model x y xv yv verbose saveto export kwargs w)
  | DoPlotHistory metrics title saveto close =>
      snd (plot_history metrics title saveto close w)
  end.

Definition fresh (m : KerasSmartModel) : world := {| self := m; calls := [] |}.

Definition after (cs : list method) (w : world) : world :=
  fold_left (fun w c => run c w) cs w.

End KerasSmartModel.

Arguments KerasSmartModel FW : clear implicits.
Arguments world FW : clear implicits.

(** ** The parts of the constructor, by name *)

(** The batch size the constructor derives (line 79). *)
Definition batch_size_of `{FW : Framework} (d : dict) : result Z :=
  if truthy (get d "batch_size")
  then (v <- getitem d "batch_size" ;; int int_of_str v)
  else Ok 32.

(** The L2 weight (line 90). *)
Definition l2_reg_of (d : dict) : pyval :=
  if truthy (get d "l2_reg") then get d "l2_reg" else VFloat (S754_zero false).

(** The monitor of the two Keras callbacks (lines 95 and 101). *)
Definition loss_monitor (d : dict) : string :=
  if contains d "validation_data" then "val_loss" else "loss".

(** The callback behind each of the three optional entries. *)
Definition es_of (d : dict) : option callback :=
  if truthy (get d "early_stopping_patience_epochs")
  then Some (EarlyStopping (loss_monitor d) "min"
               (get d "early_stopping_patience_epochs"))
  else None.

Definition chk_of (d : dict) : option callback :=
  if truthy (get d "checkpoint_path")
  then Some (ModelCheckpoint (get d "checkpoint_path") (loss_monitor d) 0 true "min")
  else None.

Definition es_crit_of (d : dict) : option callback :=
  if truthy (get d "early_stopping_monitor")
  then Some (EarlyStopAtCriteria (get d "early_stopping_monitor")
               (get d "early_stopping_mode") (get d "early_stopping_value"))
  else None.

Definition callbacks_of (d : dict) : list callback :=
  append_if (es_crit_of d) (append_if (chk_of d) (append_if (es_of d)
    [GarbageCollectionCallback])).

Definition is_gc (c : callback) : bool :=
  match c with GarbageCollectionCallback => true | _ => false end.

Definition is_es (c : callback) : bool :=
  match c with EarlyStopping _ _ _ => true | _ => false end.

Definition is_chk (c : callback) : bool :=
  match c with ModelCheckpoint _ _ _ _ _ => true | _ => false end.

Definition is_es_crit (c : callback) : bool :=
  match c with EarlyStopAtCriteria _ _ _ => true | _ => false end.

(** The instance attribute that holds the hyperparameter [k], as a Python
    value; [model_name] and [loss_function_params] have none. *)
Definition attribute `{FW : Framework} (m : KerasSmartModel FW) (k : string)
  : option pyval :=
  if String.eqb k "batch_size" then Some (VInt (_batch_size m))
  else if String.eqb k "loss_function" then Some (_loss_function m)
  else if String.eqb k "metrics" then Some (_metrics_list m)
  else if String.eqb k "optimizer" then Some (_optimizer m)
  else if String.eqb k "optimizer_params" then Some (_optimizer_params m)
  else if String.eqb k "early_stopping_patience_epochs"
       then Some (_early_stopping_patience_epochs m)
  else if String.eqb k "learning_rate" then Some (_learning_rate m)
  else if String.eqb k "exponential_decay_rate" then Some (_exponential_decay_rate m)
  else if String.eqb k "validation_data" then Some (_validation_data m)
  else if String.eqb k "epochs" then Some (_epochs m)
  else if String.eqb k "l2_reg" then Some (_l2_reg m)
  else if String.eqb k "checkpoint_path" then Some (_chkpt m)
  else if String.eqb k "early_stopping_monitor" then Some (early_stopping_monitor m)
  else if String.eqb k "early_stopping_mode" then Some (early_stopping_mode m)
  else if String.eqb k "early_stopping_value" then Some (early_stopping_value m)
  else None.

(** What the constructor sets and no method assigns: every attribute but
    [net] and [history]. *)
Definition settings `{FW : Framework} (m : KerasSmartModel FW) : KerasSmartModel FW :=
  with_net Sequential (with_history None m).

(** A computation that leaves the settings of the object alone. *)
Definition keeps `{FW : Framework} {A : Type}
    (c : world FW -> result A * world FW) : Prop :=
  forall w : world FW, settings (self (snd (c w))) = settings (self w).

(** ** The statements of the specification, in its words *)

(** The options the data model lists: name, batch size, learning rate, decay
    rate, loss function identifier, metrics list, optimizer identifier and
    parameters, epoch count, early-stopping patience, monitor, mode and
    threshold, checkpoint path, L2 regularization weight. *)
Definition listed_options : list string :=
  [ "model_name"; "batch_size"; "learning_rate"; "exponential_decay_rate";
    "loss_function"; "metrics"; "optimizer"; "optimizer_params"; "epochs";
    "early_stopping_patience_epochs"; "early_stopping_monitor";
    "early_stopping_mode"; "early_stopping_value"; "checkpoint_path"; "l2_reg" ].

(** "The default record contains a key for each listed option and no
    options beyond them." *)
Definition exactly_listed (d : dict) : Prop :=
  forall k : string, is_Some (d !! k) <-> In k listed_options.

(** "Zero to three callbacks, each included if and only if its dictionary
    entry is present": at most three callbacks in the list, and each of the
    three kinds that has an entry is in the list exactly when the entry is
    in the dictionary. *)
Definition callbacks_by_presence (d : dict) (l : list callback) : Prop :=
  (List.length l <= 3)%nat /\
  existsb is_es l = contains d "early_stopping_patience_epochs" /\
  existsb is_chk l = contains d "checkpoint_path" /\
  existsb is_es_crit l = contains d "early_stopping_monitor".

(** "Each field of the record is copied unchanged into the corresponding
    instance attribute." *)
Definition copied_unchanged `{FW : Framework} (d : dict) (m : KerasSmartModel FW)
  : Prop :=
  forall (k : string) (v a : pyval),
    d !! k = Some v -> attribute m k = Some a -> a = v.


(** "For every hyperparameter dictionary in which batch_size is absent or
    falsy the constructor sets the batch-size attribute to 32 (not to the
    sample default of 16)", of the dictionary passed to the constructor. *)
Definition absent_batch_size_32 `{FW : Framework} (d : dict)
    (m : KerasSmartModel FW) : Prop :=
  d !! "batch_size" = None \/ truthy (get d "batch_size") = false ->
  _batch_size m = 32.

(** "Pure delegation": the method returns what [f] returns on [self.net],
    leaves the network as [f] leaves it, makes this one call and changes
    nothing else of the object. *)
Definition delegates `{FW : Framework} {A : Type}
    (method : world FW -> result A * world FW)
    (e : event) (f : Net -> result A * Net) : Prop :=
  forall w : world FW,
    fst (method w) = fst (f (net (self w))) /\
    self (snd (method w)) = with_net (snd (f (net (self w)))) (self w) /\
    calls (snd (method w)) = (calls w ++ [e])%list.

(** The calls [train_model] makes when nothing raises, given the number of
    samples and the history [fit] returned. *)
Definition training_calls `{FW : Framework} (m : KerasSmartModel FW)
    (x_train y_train : Tensor) (x_val y_val : option Tensor) (verbose : Z)
    (saveto export : pyval) (kwargs : list (string * pyval))
    (N : Z) (h : History) : list event :=
  ([ CompileKerasModel (_batch_size m) (_learning_rate m) (_optimizer m)
       (_loss_function m) (_metrics_list m) (_optimizer_params m)
       (_exponential_decay_rate m) (Some N);
     FitKerasModel x_train y_train x_val y_val
       (_batch_size m) (_epochs m) (_callbacks m) verbose kwargs ]
   ++ (if truthy saveto then [SaveKerasModel (history_of h) saveto (hparams m)] else [])
   ++ (if truthy export then [ExportKerasModel export] else []))%list.

(** ** A small framework to run the class on

    The network is the list of the operations performed on it, a tensor is
    its shape, and [fit] returns a history with one loss value. *)
Module Toy.

Definition toy_history : pyval :=
  VDict (<["loss" := VList [VFloat (float_lit 1 10)]]> ∅).

#[local] Instance framework : Framework := {|
  int_of_str := Reader.read_decimal;
  Net := list string;
  Tensor := list Z;
  History := pyval;
  shape := fun t => t;
  history_of := fun h => h;
  Sequential := [];
  net_call := fun x _ _ n => (Ok x, (n ++ ["call"])%list);
  net_summary := fun n => (Ok VNone, (n ++ ["summary"])%list);
  compile_keras_model := fun _ _ _ _ _ _ _ _ n => (Ok tt, (n ++ ["compile"])%list);
  fit_keras_model := fun _ _ _ _ _ _ _ _ _ n => (Ok toy_history, (n ++ ["fit"])%list);
  save_keras_model := fun _ _ _ n => (Ok tt, (n ++ ["save"])%list);
  export_keras_model := fun _ n => (Ok tt, (n ++ ["export"])%list);
  plot_keras_model_history := fun _ _ _ _ _ => Ok VNone
|}.

(** [get_config] of a subclassed model: the name only. *)
Definition toy_super_get_config (m : KerasSmartModel framework) : result dict :=
  Ok (<["name" := get (hparams m) "model_name"]> ∅).

End Toy.

(** ** Inputs for the examples *)

Definition hp_all : dict :=
  <["early_stopping_patience_epochs" := VInt 5]> (
  <["checkpoint_path" := VStr "ckpt"]> (
  <["early_stopping_monitor" := VStr "loss"]> ∅)).

Definition hp_zero : dict :=
  <["batch_size" := VInt 0]> (<["l2_reg" := VNone]> ∅).

Definition hp_small : dict :=
  <["batch_size" := VStr " 64 "]> (
  <["validation_data" := VNone]> (
  <["early_stopping_patience_epochs" := VInt 3]> (
  <["checkpoint_path" := VStr "best.keras"]> (
  <["early_stopping_monitor" := VStr "val_loss"]> (
  <["early_stopping_mode" := VStr "min"]> (
  <["early_stopping_value" := VFloat (float_lit 1 100)]> ∅)))))).

Definition hp_sgd : dict :=
  <["optimizer" := VStr "SGD"]> (<["batch_size" := VInt 8]> ∅).

Definition hp_sgd_epochs : dict :=
  <["epochs" := VInt 1]> hp_sgd.

Definition hp_bad : dict :=
  <["batch_size" := VList [VInt 16]]> ∅.

Definition hp_float : dict :=
  <["batch_size" := VFloat (float_lit 129 2)]> (
  <["l2_reg" := VInt 0]> (
  <["early_stopping_value" := VFloat (float_lit 1 100)]> ∅)).

(** ** More of the constructor, by name *)

(** The keys the constructor looks up (lines 79-109). *)
Definition read_keys : list string :=
  [ "batch_size"; "loss_function"; "metrics"; "optimizer"; "optimizer_params";
    "early_stopping_patience_epochs"; "learning_rate"; "exponential_decay_rate";
    "validation_data"; "epochs"; "l2_reg"; "checkpoint_path";
    "early_stopping_monitor"; "early_stopping_mode"; "early_stopping_value" ].

Definition with_hparams `{FW : Framework} (hp : dict) (m : KerasSmartModel FW)
  : KerasSmartModel FW :=
  {| hparams := hp;
     _batch_size := _batch_size m;
     _loss_function := _loss_function m;
     _metrics_list := _metrics_list m;
     _optimizer := _optimizer m;
     _optimizer_params := _optimizer_params m;
     _early_stopping_patience_epochs := _early_stopping_patience_epochs m;
     _learning_rate := _learning_rate m;
     _exponential_decay_rate := _exponential_decay_rate m;
     _validation_data := _validation_data m;
     _epochs := _epochs m;
     _l2_reg := _l2_reg m;
     history := history m;
     batch_input_shape := batch_input_shape m;
     batch_output_shape := batch_output_shape m;
     _callbacks := _callbacks m;
     _es := _es m;
     _chkpt := _chkpt m;
     _chk := _chk m;
     early_stopping_monitor := early_stopping_monitor m;
     early_stopping_mode := early_stopping_mode m;
     early_stopping_value := early_stopping_value m;
     _es_crit := _es_crit m;
     net := net m |}.

(** The two calls that open every training run. *)
Definition compile_event `{FW : Framework} (m : KerasSmartModel FW) (N : Z) : event :=
  CompileKerasModel (_batch_size m) (_learning_rate m) (_optimizer m)
    (_loss_function m) (_metrics_list m) (_optimizer_params m)
    (_exponential_decay_rate m) (Some N).

Definition fit_event `{FW : Framework} (m : KerasSmartModel FW)
    (x_train y_train : Tensor) (x_val y_val : option Tensor) (verbose : Z)
    (kwargs : list (string * pyval)) : event :=
  FitKerasModel x_train y_train x_val y_val
    (_batch_size m) (_epochs m) (_callbacks m) verbose kwargs.

(** ** A framework whose helpers can fail

    Compiling fails without an optimizer, fitting fails without a number of
    epochs, saving and exporting fail on the path ["/"]. *)
Module Strict.

#[local] Instance framework : Framework := {|
  int_of_str := Reader.read_decimal;
  Net := list string;
  Tensor := list Z;
  History := pyval;
  shape := fun t => t;
  history_of := fun h => h;
  Sequential := [];
  net_call := fun x _ _ n => (Ok x, (n ++ ["call"])%list);
  net_summary := fun n =>
    if Nat.eqb (List.length n) 0
    then (Raise ValueError, n)
    else (Ok VNone, (n ++ ["summary"])%list);
  compile_keras_model := fun _ _ optimizer _ _ _ _ _ n =>
    if truthy optimizer
    then (Ok tt, (n ++ ["compile"])%list)
    else (Raise (FrameworkError "optimizer"), n);
  fit_keras_model := fun _ _ _ _ _ epochs _ _ _ n =>
    if truthy epochs
    then (Ok Toy.toy_history, (n ++ ["fit"])%list)
    else (Raise (FrameworkError "epochs"), (n ++ ["fit started"])%list);
  save_keras_model := fun _ saveto _ n =>
    match saveto with
    | VStr "/" => (Raise (FrameworkError "saveto"), n)
    | _ => (Ok tt, (n ++ ["save"])%list)
    end;
  export_keras_model := fun export n =>
    match export with
    | VStr "/" => (Raise (FrameworkError "export"), n)
    | _ => (Ok tt, (n ++ ["export"])%list)
    end;
  plot_keras_model_history := fun _ _ _ _ _ => Ok VNone
|}.

(** A framework [get_config] that is not implemented for subclassed
    models. *)
Definition no_super_get_config (m : KerasSmartModel framework) : result dict :=
  Raise (FrameworkError "get_config").

End Strict.

(** ** The constructor *)

Section Constructor.

Context `{FW : Framework}.

Lemma getitem_get (d : dict) (k : string) :
  truthy (get d k) = true -> getitem d k = Ok (get d k).
Proof.
  unfold get, getitem. destruct (d !! k); [reflexivity | discriminate].
Qed.

Lemma batch_size_of_int (d : dict) :
  truthy (get d "batch_size") = true ->
  batch_size_of d = int int_of_str (get d "batch_size").
Proof.
  intros Ht. unfold batch_size_of. rewrite Ht, (getitem_get _ _ Ht). reflexivity.
Qed.

Lemma init_from_inv (d : dict) (m : KerasSmartModel FW) :
  init_from d = Ok m ->
  batch_size_of d = Ok (_batch_size m) /\
  hparams m = d /\
  _es m = es_of d /\ _chk m = chk_of d /\ _es_crit m = es_crit_of d /\
  _callbacks m = callbacks_of d /\
  batch_input_shape m = (_batch_size m, 1) /\
  batch_output_shape m = (_batch_size m, 1) /\
  history m = None /\ net m = Sequential.
Proof.
  unfold init_from. fold (batch_size_of d).
  destruct (batch_size_of d) as [n|e]; cbn [bind]; [|discriminate].
  intros [= <-]. repeat split; reflexivity.
Qed.

(** The constructor returns exactly when the batch size can be derived. *)
Lemma init_from_returns (d : dict) (n : Z) :
  batch_size_of d = Ok n -> exists m : KerasSmartModel FW, init_from d = Ok m.
Proof.
  intros Hn. unfold init_from. fold (batch_size_of d). rewrite Hn. simpl. eauto.
Qed.

Lemma init_from_raises (d : dict) (e : exn) :
  batch_size_of d = Raise e -> init_from d = @Raise (KerasSmartModel FW) e.
Proof.
  intros Hn. unfold init_from. fold (batch_size_of d). rewrite Hn. reflexivity.
Qed.

Lemma sample_hparams_size : size sample_hparams = 17%nat.
Proof. vm_compute. reflexivity. Qed.

Lemma truthy_sample_hparams : truthy (VDict sample_hparams) = true.
Proof. unfold truthy. rewrite sample_hparams_size. reflexivity. Qed.

(** The dictionary the constructor reads: its argument when that is a
    dictionary with an entry, [sample_hparams] when the argument is false. *)
Lemma init_inv (arg : pyval) (m : KerasSmartModel FW) :
  __init__ arg = Ok m ->
  init_from (hparams m) = Ok m /\
  (truthy arg = true -> arg = VDict (hparams m)) /\
  (truthy arg = false -> hparams m = sample_hparams).
Proof.
  unfold __init__. destruct (truthy arg) eqn:Ht; simpl.
  - destruct arg; try discriminate; intros H.
    destruct (init_from_inv _ _ H) as (_ & -> & _).
    split; [exact H | split; intros; [reflexivity | discriminate]].
  - intros H. destruct (init_from_inv _ _ H) as (_ & -> & _).
    split; [exact H | split; intros; [discriminate | reflexivity]].
Qed.

Lemma init_dict (d : dict) :
  size d <> 0%nat -> __init__ (VDict d) = init_from d.
Proof.
  intros Hd. unfold __init__. simpl.
  destruct (Nat.eqb_spec (size d) 0); [contradiction | reflexivity].
Qed.

Lemma init_default (arg : pyval) :
  truthy arg = false -> __init__ arg = init_from sample_hparams.
Proof. intros Ht. unfold __init__. rewrite Ht. reflexivity. Qed.

Lemma get_absent (d : dict) (k : string) : d !! k = None -> get d k = VNone.
Proof. unfold get. intros ->. reflexivity. Qed.

Lemma contains_is_Some (d : dict) (k : string) :
  contains d k = true <-> is_Some (d !! k).
Proof.
  unfold contains. destruct (d !! k) as [v|].
  - split; [eauto | reflexivity].
  - split; [discriminate | intros [v Hv]; discriminate].
Qed.

(** Every attribute that holds a hyperparameter, after construction. *)
Lemma init_from_attributes (d : dict) (m : KerasSmartModel FW) :
  init_from d = Ok m ->
  (forall (k : string) (a : pyval),
     attribute m k = Some a -> k <> "batch_size" -> k <> "l2_reg" -> a = get d k) /\
  attribute m "batch_size" = Some (VInt (_batch_size m)) /\
  attribute m "l2_reg" = Some (l2_reg_of d).
Proof.
  unfold init_from. fold (batch_size_of d).
  destruct (batch_size_of d) as [n|e]; cbn [bind]; [|discriminate].
  intros [= <-]. split; [|split; reflexivity].
  intros k a. unfold attribute.
  repeat match goal with
  | |- context [String.eqb k ?s] =>
      destruct (String.eqb_spec k s) as [->|_];
      [simpl; intros [= <-] **; first [reflexivity | congruence] |]
  end.
  discriminate.
Qed.

(** The shape of the callbacks list. *)
Lemma callbacks_of_shape (d : dict) :
  callbacks_of d =
    (GarbageCollectionCallback ::
     option_list (es_of d) ++ option_list (chk_of d) ++ option_list (es_crit_of d))%list.
Proof.
  unfold callbacks_of.
  destruct (es_of d), (chk_of d), (es_crit_of d); reflexivity.
Qed.

Lemma callbacks_of_kinds (d : dict) :
  existsb is_gc (callbacks_of d) = true /\
  existsb is_es (callbacks_of d) = truthy (get d "early_stopping_patience_epochs") /\
  existsb is_chk (callbacks_of d) = truthy (get d "checkpoint_path") /\
  existsb is_es_crit (callbacks_of d) = truthy (get d "early_stopping_monitor") /\
  (1 <= List.length (callbacks_of d) <= 4)%nat.
Proof.
  unfold callbacks_of, es_of, chk_of, es_crit_of.
  destruct (truthy (get d "early_stopping_patience_epochs")),
           (truthy (get d "checkpoint_path")),
           (truthy (get d "early_stopping_monitor")); simpl;
    repeat split; lia.
Qed.

(** The constructor's outcome on the defaults. *)
Lemma batch_size_of_sample : batch_size_of sample_hparams = Ok 16.
Proof. vm_compute. reflexivity. Qed.

End Constructor.

(** ** What the constructor builds *)

Section ConstructorClaims.

Context `{FW : Framework}.

(** C1, as the code has it: the callbacks list is the garbage-collection
    callback, always, followed in this order by the patience early-stopping
    callback, the checkpoint callback and the threshold early-stopping
    callback, each there exactly when its entry in the dictionary the
    constructor reads holds a true value; so the list has between one and
    four callbacks.  The dictionary read is the argument itself when that is
    a dictionary with an entry, and [sample_hparams] when the argument is
    false ([None], an empty dictionary). *)
Theorem callbacks_assembled (arg : pyval) (m : KerasSmartModel FW) :
  __init__ arg = Ok m ->
  let d := hparams m in
  (truthy arg = true -> arg = VDict d) /\
  (truthy arg = false -> d = sample_hparams) /\
  _callbacks m =
    (GarbageCollectionCallback ::
     option_list (es_of d) ++ option_list (chk_of d) ++ option_list (es_crit_of d))%list /\
  existsb is_gc (_callbacks m) = true /\
  existsb is_es (_callbacks m) = truthy (get d "early_stopping_patience_epochs") /\
  existsb is_chk (_callbacks m) = truthy (get d "checkpoint_path") /\
  existsb is_es_crit (_callbacks m) = truthy (get d "early_stopping_monitor") /\
  (1 <= List.length (_callbacks m) <= 4)%nat.
Proof.
  intros H d. apply init_inv in H as (H & Harg & Hdef).
  apply init_from_inv in H as (_ & _ & _ & _ & _ & Hc & _). fold d in Hc.
  split; [exact Harg |]. split; [exact Hdef |].
  rewrite Hc. split; [apply callbacks_of_shape | apply callbacks_of_kinds].
Qed.

(** C2, as the code has it: every attribute that holds a hyperparameter
    other than the batch size and the L2 weight is the value under its key
    in the dictionary the constructor reads, [None] when the key is missing;
    the batch size is [int] of the entry when the entry is true and 32
    otherwise; the L2 weight is the entry when it is true and 0.0
    otherwise.  The dictionary read is the argument itself when that is a
    dictionary with an entry, and [sample_hparams] when the argument is
    false ([None], an empty dictionary). *)
Theorem attributes_read (arg : pyval) (m : KerasSmartModel FW) :
  __init__ arg = Ok m ->
  let d := hparams m in
  (truthy arg = true -> arg = VDict d) /\
  (truthy arg = false -> d = sample_hparams) /\
  (forall (k : string) (a : pyval),
     attribute m k = Some a -> k <> "batch_size" -> k <> "l2_reg" -> a = get d k) /\
  (truthy (get d "batch_size") = true ->
     int int_of_str (get d "batch_size") = Ok (_batch_size m)) /\
  (truthy (get d "batch_size") = false -> _batch_size m = 32) /\
  (truthy (get d "l2_reg") = true -> _l2_reg m = get d "l2_reg") /\
  (truthy (get d "l2_reg") = false -> _l2_reg m = VFloat (S754_zero false)).
Proof.
  intros H d. apply init_inv in H as (H & Harg & Hdef). fold d in H.
  destruct (init_from_attributes _ _ H) as (Hk & _ & Hl).
  destruct (init_from_inv _ _ H) as (Hb & _).
  split; [exact Harg |]. split; [exact Hdef |].
  split; [exact Hk |]. unfold attribute in Hl. simpl in Hl. injection Hl as Hl.
  unfold l2_reg_of in Hl. unfold batch_size_of in Hb.
  repeat split; intros Ht; rewrite Ht in *; try assumption.
  - rewrite (getitem_get _ _ Ht) in Hb. exact Hb.
  - congruence.
Qed.

(** C3: without a dictionary ([None], or an empty one) the constructor
    returns, the [hparams] attribute is [sample_hparams], and the object is
    the one built from [sample_hparams]: every attribute holds the value of
    its key there and the callbacks are those of the sample entries. *)
Theorem defaults_populated (arg : pyval) :
  arg = VNone \/ arg = VDict ∅ ->
  exists m : KerasSmartModel FW,
    __init__ arg = Ok m /\
    hparams m = sample_hparams /\
    __init__ (VDict sample_hparams) = Ok m /\
    copied_unchanged sample_hparams m /\
    _batch_size m = 16 /\
    batch_input_shape m = (16, 1) /\ batch_output_shape m = (16, 1) /\
    _callbacks m =
      [ GarbageCollectionCallback;
        EarlyStopping "val_loss" "min" (VInt 10);
        EarlyStopAtCriteria (VStr "loss") (VStr "min")
          (VFloat (float_lit 1 1000000)) ].
Proof.
  intros Harg.
  assert (Ht : truthy arg = false) by (destruct Harg as [-> | ->]; reflexivity).
  destruct (init_from_returns (FW:=FW) sample_hparams 16 batch_size_of_sample)
    as [m Hm].
  exists m. rewrite (init_default _ Ht).
  rewrite (init_dict sample_hparams) by (rewrite sample_hparams_size; discriminate).
  destruct (init_from_inv _ _ Hm) as (Hb & Hh & _ & _ & _ & Hc & Hi & Ho & _).
  rewrite batch_size_of_sample in Hb. injection Hb as Hb.
  destruct (init_from_attributes _ _ Hm) as (Hk & Hbs & Hl).
  assert (Hcopy : copied_unchanged sample_hparams m).
  { intros k v a Hv Ha.
    destruct (String.eqb_spec k "batch_size") as [-> | Hn1].
    { rewrite Hbs in Ha. vm_compute in Hv. congruence. }
    destruct (String.eqb_spec k "l2_reg") as [-> | Hn2].
    { rewrite Hl in Ha. vm_compute in Hv, Ha. congruence. }
    rewrite (Hk k a Ha Hn1 Hn2). unfold get. rewrite Hv. reflexivity. }
  assert (Hcb : callbacks_of sample_hparams =
     [ GarbageCollectionCallback;
       EarlyStopping "val_loss" "min" (VInt 10);
       EarlyStopAtCriteria (VStr "loss") (VStr "min")
         (VFloat (float_lit 1 1000000)) ]) by (vm_compute; reflexivity).
  rewrite Hi, Ho, Hc, <- Hb, Hcb. repeat split; assumption.
Qed.


(** C9: the patience [EarlyStopping] and the [ModelCheckpoint] are built
    with monitor ["val_loss"] when the key [validation_data] is in the
    dictionary the constructor reads, whatever its value, and with monitor
    ["loss"] when it is not; both with mode ["min"], the checkpoint with
    [save_best_only=True]. *)
Theorem monitor_by_validation_key (arg : pyval) (m : KerasSmartModel FW) :
  __init__ arg = Ok m ->
  let d := hparams m in
  let patience := get d "early_stopping_patience_epochs" in
  let path := get d "checkpoint_path" in
  (truthy arg = true -> arg = VDict d) /\
  (is_Some (d !! "validation_data") ->
     (truthy patience = true -> _es m = Some (EarlyStopping "val_loss" "min" patience)) /\
     (truthy path = true ->
        _chk m = Some (ModelCheckpoint path "val_loss" 0 true "min"))) /\
  (d !! "validation_data" = None ->
     (truthy patience = true -> _es m = Some (EarlyStopping "loss" "min" patience)) /\
     (truthy path = true ->
        _chk m = Some (ModelCheckpoint path "loss" 0 true "min"))) /\
  (forall c, In c (_callbacks m) ->
     match c with
     | EarlyStopping monitor mode _ =>
         _es m = Some c /\ mode = "min" /\
         (monitor = "val_loss" <-> is_Some (d !! "validation_data")) /\
         (monitor = "loss" <-> d !! "validation_data" = None)
     | ModelCheckpoint _ monitor _ save_best_only mode =>
         _chk m = Some c /\ mode = "min" /\ save_best_only = true /\
         (monitor = "val_loss" <-> is_Some (d !! "validation_data")) /\
         (monitor = "loss" <-> d !! "validation_data" = None)
     | _ => True
     end).
Proof.
  intros H d patience path. apply init_inv in H as (H & Harg & _). fold d in H.
  apply init_from_inv in H as (_ & _ & Hes & Hchk & _ & Hc & _).
  split; [exact Harg |]. rewrite Hes, Hchk, Hc.
  unfold callbacks_of, es_crit_of, es_of, chk_of, loss_monitor, contains.
  fold patience path.
  destruct (d !! "validation_data") as [v|] eqn:Hv.
  - split; [intros _; split; intros ->; reflexivity |].
    split; [intros [=] |].
    intros c.
    destruct (truthy patience), (truthy path),
             (truthy (get d "early_stopping_monitor")); simpl;
      intros Hin; repeat destruct Hin as [<- | Hin]; try contradiction;
      try exact I; repeat split; eauto; try discriminate; intros [? [=]].
  - split; [intros [? [=]] |].
    split; [intros _; split; intros ->; reflexivity |].
    intros c.
    destruct (truthy patience), (truthy path),
             (truthy (get d "early_stopping_monitor")); simpl;
      intros Hin; repeat destruct Hin as [<- | Hin]; try contradiction;
      try exact I; repeat split; eauto; try discriminate; intros [? [=]].
Qed.

(** C10, as the code has it: for a dictionary with an entry the
    constructor reads that dictionary; when its entry [batch_size] is
    missing or false (0 included) the batch size is 32, otherwise it is
    [int] of the entry.  For a false argument ([None], an empty dictionary)
    the constructor reads [sample_hparams] and the batch size is 16.  In
    every case [batch_input_shape] and [batch_output_shape] are the pair of
    the batch size and 1. *)
Theorem batch_size_edge (arg : pyval) (m : KerasSmartModel FW) :
  __init__ arg = Ok m ->
  let d := hparams m in
  (truthy arg = true -> arg = VDict d) /\
  (truthy arg = false -> d = sample_hparams /\ _batch_size m = 16) /\
  (d !! "batch_size" = None \/ truthy (get d "batch_size") = false ->
     _batch_size m = 32) /\
  (d !! "batch_size" = Some (VInt 0) -> _batch_size m = 32) /\
  (truthy (get d "batch_size") = true ->
     int int_of_str (get d "batch_size") = Ok (_batch_size m)) /\
  batch_input_shape m = (_batch_size m, 1) /\
  batch_output_shape m = (_batch_size m, 1).
Proof.
  intros H d. apply init_inv in H as (H & Harg & Hdef). fold d in H.
  apply init_from_inv in H as (Hb & _ & _ & _ & _ & _ & Hi & Ho & _).
  split; [exact Harg |].
  split.
  { intros Hf. specialize (Hdef Hf). fold d in Hdef. split; [exact Hdef |].
    rewrite Hdef, batch_size_of_sample in Hb. congruence. }
  assert (Hf : truthy (get d "batch_size") = false -> _batch_size m = 32).
  { intros Ht. unfold batch_size_of in Hb. rewrite Ht in Hb. congruence. }
  repeat split; try assumption.
  - intros [Hn | Ht]; [| exact (Hf Ht)].
    apply Hf. rewrite (get_absent _ _ Hn). reflexivity.
  - intros Hz. apply Hf. unfold get. rewrite Hz. reflexivity.
  - intros Ht. rewrite <- Hb. symmetry. apply batch_size_of_int. exact Ht.
Qed.

End ConstructorClaims.

(** ** The methods *)

Section Methods.

Context `{FW : Framework}.

(** C5: [call] and [summary] are pure delegation: each returns what the
    wrapped network returns on the same arguments, makes that one call, and
    changes nothing of the object but the network as the call leaves it. *)
Theorem call_summary_delegate :
  (forall (x : Tensor) (args : list pyval) (kwargs : list (string * pyval)),
     delegates (call x args kwargs) (NetCall x args kwargs) (net_call x args kwargs)) /\
  delegates summary NetSummary net_summary.
Proof.
  split; [intros x args kwargs |]; intros w; unfold call, summary, on_net.
  - destruct (net_call x args kwargs (net (self w))) as [r n]. simpl. auto.
  - destruct (net_summary (net (self w))) as [r n]. simpl. auto.
Qed.

Lemma mbind_ok {A B : Type} (c : world FW -> result A * world FW)
    (k : A -> world FW -> result B * world FW) (w w' : world FW) (a : A) :
  c w = (Ok a, w') -> mbind c k w = k a w'.
Proof. intros H. unfold mbind. rewrite H. reflexivity. Qed.

Lemma mbind_raise {A B : Type} (c : world FW -> result A * world FW)
    (k : A -> world FW -> result B * world FW) (w w' : world FW) (e : exn) :
  c w = (Raise e, w') -> mbind c k w = (Raise e, w').
Proof. intros H. unfold mbind. rewrite H. reflexivity. Qed.

Lemma on_net_ok {A : Type} (e : event) (f : Net -> result A * Net)
    (w : world FW) (r : result A) (n : Net) :
  f (net (self w)) = (r, n) ->
  on_net e f w = (r, {| self := with_net n (self w); calls := (calls w ++ [e])%list |}).
Proof. intros H. unfold on_net. rewrite H. reflexivity. Qed.

(** C4: a call of [train_model] in which nothing raises compiles the network
    with the stored hyperparameters and the first dimension of [x_train] as
    the number of samples, then fits it with the stored batch size, epoch
    count and callbacks list, then saves it exactly when [saveto] is a true
    value (a path, not [None] or the empty string), then exports it exactly
    when [export] is; it returns [None] and leaves the history that the fit
    returned in [history]. *)
Theorem train_model_steps (w : world FW)
    (x_train y_train : Tensor) (x_val y_val : option Tensor) (verbose : Z)
    (saveto export : pyval) (kwargs : list (string * pyval))
    (N : Z) (rest : list Z) (h : History) (n1 n2 n3 n4 : Net) :
  let m := self w in
  shape x_train = N :: rest ->
  compile_keras_model (_batch_size m) (_learning_rate m) (_optimizer m)
    (_loss_function m) (_metrics_list m) (_optimizer_params m)
    (_exponential_decay_rate m) (Some N) (net m) = (Ok tt, n1) ->
  fit_keras_model x_train y_train x_val y_val
    (_batch_size m) (_epochs m) (_callbacks m) verbose kwargs n1 = (Ok h, n2) ->
  (if truthy saveto then save_keras_model (history_of h) saveto (hparams m) n2
   else (Ok tt, n2)) = (Ok tt, n3) ->
  (if truthy export then export_keras_model export n3
   else (Ok tt, n3)) = (Ok tt, n4) ->
  train_model x_train y_train x_val y_val verbose saveto export kwargs w =
    (Ok tt,
     {| self := with_net n4 (with_history (Some h) m);
        calls := (calls w ++
                  training_calls m x_train y_train x_val y_val verbose
                    saveto export kwargs N h)%list |}).
Proof.
  intros m Hshape Hc Hf Hs He.
  unfold train_model, training_calls.
  rewrite (mbind_ok _ _ w w N) by (unfold lift, shape0; rewrite Hshape; reflexivity).
  erewrite mbind_ok; cycle 1.
  { unfold compile_model. erewrite mbind_ok by reflexivity.
    apply on_net_ok. exact Hc. }
  erewrite mbind_ok; cycle 1.
  { unfold fit_model. erewrite mbind_ok by reflexivity.
    erewrite mbind_ok by (apply on_net_ok; exact Hf).
    erewrite mbind_ok by reflexivity. reflexivity. }
  cbn [self calls].
  assert (Hsave :
    forall w1 : world FW,
      net (self w1) = n2 -> history (self w1) = Some h -> hparams (self w1) = hparams m ->
      (if truthy saveto
       then mbind history_history (fun hh =>
              mbind (read hparams) (fun hp =>
                on_net (SaveKerasModel hh saveto hp) (save_keras_model hh saveto hp)))
       else ret tt) w1 =
      (Ok tt, {| self := with_net n3 (self w1);
                 calls := (calls w1 ++
                   (if truthy saveto
                    then [SaveKerasModel (history_of h) saveto (hparams m)]
                    else []))%list |})).
  { intros [m1 c1] Hn Hh Hp. cbn [self calls] in *.
    destruct (truthy saveto).
    - unfold mbind, history_history, read, on_net, ret. cbn.
      rewrite Hh. cbn. rewrite Hp, Hn, Hs. reflexivity.
    - injection Hs as <-. unfold ret. rewrite app_nil_r, <- Hn.
      destruct m1; reflexivity. }
  assert (Hexport :
    forall w1 : world FW,
      net (self w1) = n3 ->
      (if truthy export
       then on_net (ExportKerasModel export) (export_keras_model export)
       else ret tt) w1 =
      (Ok tt, {| self := with_net n4 (self w1);
                 calls := (calls w1 ++
                   (if truthy export then [ExportKerasModel export] else []))%list |})).
  { intros [m1 c1] Hn. cbn [self calls] in *.
    destruct (truthy export).
    - unfold on_net. cbn. rewrite Hn, He. reflexivity.
    - injection He as <-. unfold ret. rewrite app_nil_r, <- Hn.
      destruct m1; reflexivity. }
  erewrite mbind_ok by (apply Hsave; reflexivity).
  erewrite mbind_ok by (apply Hexport; reflexivity).
  unfold ret. cbn [self calls]. f_equal. f_equal.
  rewrite <- !app_assoc. reflexivity.
Qed.

End Methods.

(** ** The settings of an object over its lifetime *)

Section Lifetime.

Context `{FW : Framework}.
Variable super_get_config : KerasSmartModel FW -> result dict.

Lemma keeps_ret {A : Type} (a : A) : keeps (ret a).
Proof. intros w. reflexivity. Qed.

Lemma keeps_raise {A : Type} (e : exn) : keeps (@raise FW A e).
Proof. intros w. reflexivity. Qed.

Lemma keeps_lift {A : Type} (r : result A) : keeps (lift r).
Proof. intros w. reflexivity. Qed.

Lemma keeps_read {A : Type} (f : KerasSmartModel FW -> A) : keeps (read f).
Proof. intros w. reflexivity. Qed.

Lemma keeps_on_net {A : Type} (e : event) (f : Net -> result A * Net) :
  keeps (on_net e f).
Proof.
  intros w. unfold on_net. destruct (f (net (self w))) as [r n]. reflexivity.
Qed.

Lemma keeps_outside {A : Type} (e : event) (r : result A) : keeps (outside e r).
Proof. intros w. reflexivity. Qed.

Lemma keeps_set_history (h : History) : keeps (set_history h).
Proof. intros w. reflexivity. Qed.

Lemma keeps_mbind {A B : Type} (c : world FW -> result A * world FW)
    (k : A -> world FW -> result B * world FW) :
  keeps c -> (forall a, keeps (k a)) -> keeps (mbind c k).
Proof.
  intros Hc Hk w. unfold mbind. specialize (Hc w).
  destruct (c w) as [[a | e] w']; simpl in *.
  - rewrite Hk. exact Hc.
  - exact Hc.
Qed.

Lemma keeps_if {A : Type} (b : bool) (c1 c2 : world FW -> result A * world FW) :
  keeps c1 -> keeps c2 -> keeps (if b then c1 else c2).
Proof. destruct b; auto. Qed.

Create HintDb keeps.
Hint Resolve keeps_ret keeps_raise keeps_lift keeps_read keeps_on_net
  keeps_outside keeps_set_history : keeps.

Ltac keeps :=
  repeat first
    [ apply keeps_mbind; [| intros ?]
    | apply keeps_if
    | solve [auto with keeps]
    | match goal with |- keeps (match ?o with _ => _ end) => destruct o end ].

Lemma keeps_call x args kwargs : keeps (call x args kwargs).
Proof. unfold call. keeps. Qed.

Lemma keeps_summary : keeps summary.
Proof. unfold summary. keeps. Qed.

Lemma keeps_get_config : keeps (get_config super_get_config).
Proof.
  unfold get_config. keeps. intros w. reflexivity.
Qed.

Lemma keeps_compile_model n : keeps (compile_model n).
Proof. unfold compile_model. keeps. Qed.

Lemma keeps_fit_model x y xv yv verbose kwargs :
  keeps (fit_model x y xv yv verbose kwargs).
Proof. unfold fit_model. keeps. Qed.

Lemma keeps_history_history : keeps history_history.
Proof. unfold history_history. keeps. Qed.

Lemma keeps_train_model x y xv yv verbose saveto export kwargs :
  keeps (train_model x y xv yv verbose saveto export kwargs).
Proof.
  unfold train_model. pose proof keeps_compile_model. pose proof keeps_fit_model.
  pose proof keeps_history_history. keeps.
Qed.

Lemma keeps_plot_history metrics title saveto close :
  keeps (plot_history metrics title saveto close).
Proof. unfold plot_history. pose proof keeps_history_history. keeps. Qed.

(** No method call changes the settings. *)
Lemma run_settings (c : method) (w : world FW) :
  settings (self (run super_get_config c w)) = settings (self w).
Proof.
  destruct c; simpl.
  - apply keeps_call.
  - apply keeps_summary.
  - apply keeps_get_config.
  - apply keeps_compile_model.
  - apply keeps_fit_model.
  - apply keeps_train_model.
  - apply keeps_plot_history.
Qed.

Lemma after_settings (cs : list method) (w : world FW) :
  settings (self (after super_get_config cs w)) = settings (self w).
Proof.
  revert w. induction cs as [| c cs IH]; intros w.
  - reflexivity.
  - change (settings (self (after super_get_config cs (run super_get_config c w)))
            = settings (self w)).
    rewrite IH. apply run_settings.
Qed.

Lemma settings_hparams (m m' : KerasSmartModel FW) :
  settings m = settings m' -> hparams m = hparams m'.
Proof. intros H. apply (f_equal hparams) in H. exact H. Qed.

(** The dictionary of a constructed object is never empty. *)
Lemma init_hparams_size (arg : pyval) (m : KerasSmartModel FW) :
  __init__ arg = Ok m -> size (hparams m) <> 0%nat.
Proof.
  intros H. apply init_inv in H as (_ & Ht & Hf).
  destruct (truthy arg) eqn:E.
  - specialize (Ht eq_refl). rewrite Ht in E. simpl in E.
    destruct (Nat.eqb_spec (size (hparams m)) 0); [discriminate | assumption].
  - rewrite (Hf eq_refl), sample_hparams_size. discriminate.
Qed.

(** C8: for an object the constructor returned, after any calls of its
    methods, [get_config] returns (when the framework's own [get_config]
    does) a configuration with the object's [hparams] under the key
    ["hparams"], and [from_config] of it returns an object with the same
    [hparams]: the object the constructor had returned. *)
Theorem config_round_trip (arg : pyval) (m0 : KerasSmartModel FW)
    (cs : list method) (base : dict) :
  __init__ arg = Ok m0 ->
  let w := after super_get_config cs (fresh m0) in
  super_get_config (self w) = Ok base ->
  exists (config : dict) (m' : KerasSmartModel FW),
    fst (get_config super_get_config w) = Ok config /\
    config !! "hparams" = Some (VDict (hparams (self w))) /\
    from_config config = Ok m' /\
    hparams m' = hparams (self w) /\
    m' = m0.
Proof.
  intros Hinit w Hbase.
  assert (Hhp : hparams (self w) = hparams m0).
  { apply settings_hparams. unfold w. rewrite after_settings. reflexivity. }
  exists (<["hparams" := VDict (hparams (self w))]> base), m0.
  split; [| split; [| split; [| split]]].
  - unfold get_config, mbind, outside, read, ret. rewrite Hbase. reflexivity.
  - apply lookup_insert_eq.
  - unfold from_config, getitem. rewrite lookup_insert_eq. simpl. rewrite Hhp.
    rewrite init_dict by (eapply init_hparams_size; eassumption).
    apply init_inv in Hinit as (Hinit & _). exact Hinit.
  - symmetry. exact Hhp.
  - reflexivity.
Qed.

End Lifetime.

(** ** The default record *)

(** C6, as the code has it: [sample_hparams] has a key for each listed
    option and two more, [validation_data] and [loss_function_params]:
    seventeen keys. *)
Theorem sample_hparams_keys :
  (forall k : string,
     is_Some (sample_hparams !! k) <->
     In k listed_options \/ k = "validation_data" \/ k = "loss_function_params") /\
  size sample_hparams = 17%nat /\
  List.length listed_options = 15%nat.
Proof.
  split; [| split; [apply sample_hparams_size | reflexivity]].
  intros k. unfold sample_hparams.
  repeat rewrite lookup_insert_is_Some'.
  pose proof (lookup_empty_is_Some (M:=gmap string) (A:=pyval) k) as He.
  unfold listed_options, In. intuition congruence.
Qed.

(** ** The class at work on concrete dictionaries *)

Module Examples.

Import Toy.

#[local] Existing Instance Toy.framework.

Abbreviation init := (@__init__ Toy.framework).

(** With the three optional entries set the list holds four callbacks, and
    the sample dictionary has the key [checkpoint_path] (with [None]) and no
    checkpoint callback: the callbacks do not follow the presence of the
    entries. *)
Lemma callbacks_by_presence_counterexample :
  (exists m,
     init (VDict hp_all) = Ok m /\
     List.length (_callbacks m) = 4%nat /\
     ~ callbacks_by_presence hp_all (_callbacks m)) /\
  (exists m,
     init (VDict sample_hparams) = Ok m /\
     contains sample_hparams "checkpoint_path" = true /\
     existsb is_chk (_callbacks m) = false /\
     ~ callbacks_by_presence sample_hparams (_callbacks m)).
Proof.
  split; eexists; (split; [reflexivity |]).
  - split; [reflexivity |]. intros [Hlen _]. vm_compute in Hlen. lia.
  - split; [reflexivity |]. split; [vm_compute; reflexivity |].
    intros (_ & _ & Hchk & _). vm_compute in Hchk. discriminate.
Qed.

Lemma callbacks_assembled_witness :
  exists m,
    init (VDict hp_all) = Ok m /\
    _callbacks m =
      [ GarbageCollectionCallback;
        EarlyStopping "loss" "min" (VInt 5);
        ModelCheckpoint (VStr "ckpt") "loss" 0 true "min";
        EarlyStopAtCriteria (VStr "loss") VNone VNone ] /\
    (1 <= List.length (_callbacks m) <= 4)%nat.
Proof.
  eexists. split; [reflexivity |].
  destruct (callbacks_assembled (VDict hp_all) _ eq_refl)
    as (_ & _ & Hl & _ & _ & _ & _ & Hn).
  split; [| exact Hn].
  etransitivity; [exact Hl |]. vm_compute. reflexivity.
Defined.

(** A batch size of 0 becomes 32 and an L2 weight of [None] becomes 0.0:
    these two fields are not copied unchanged. *)
Lemma copied_unchanged_counterexample :
  exists m,
    init (VDict hp_zero) = Ok m /\
    hp_zero !! "batch_size" = Some (VInt 0) /\ _batch_size m = 32 /\
    hp_zero !! "l2_reg" = Some VNone /\ _l2_reg m = VFloat (S754_zero false) /\
    ~ copied_unchanged hp_zero m.
Proof.
  eexists. split; [reflexivity |].
  repeat (split; [vm_compute; reflexivity |]).
  intros H. specialize (H "batch_size" (VInt 0) (VInt 32)).
  assert (E : VInt 32 = VInt 0) by (apply H; vm_compute; reflexivity).
  discriminate E.
Qed.

Lemma attributes_read_witness :
  exists m,
    init (VDict hp_float) = Ok m /\
    hparams m = hp_float /\
    _batch_size m = 64 /\
    _l2_reg m = VFloat (S754_zero false) /\
    early_stopping_value m = VFloat (float_lit 1 100) /\
    _optimizer m = VNone.
Proof.
  eexists. split; [reflexivity |].
  destruct (attributes_read (VDict hp_float) _ eq_refl)
    as (_ & _ & Hk & Hb & _ & _ & Hl).
  split; [| split; [| split; [| split]]].
  - reflexivity.
  - specialize (Hb eq_refl).
    apply (f_equal (fun r => match r with Ok n => n | Raise _ => 0 end)) in Hb.
    symmetry. exact Hb.
  - apply Hl. reflexivity.
  - apply (Hk "early_stopping_value"); [reflexivity | discriminate | discriminate].
  - apply (Hk "optimizer"); [reflexivity | discriminate | discriminate].
Defined.

Lemma defaults_populated_witness :
  exists m,
    init (VDict ∅) = Ok m /\
    init VNone = Ok m /\
    hparams m = sample_hparams /\
    _batch_size m = 16.
Proof.
  destruct (defaults_populated (FW:=Toy.framework) (VDict ∅) (or_intror eq_refl))
    as (m & Hm & Hh & _ & _ & Hb & _).
  exists m. split; [exact Hm |]. split; [exact Hm |]. split; assumption.
Defined.


Lemma monitor_by_validation_key_witness :
  exists m,
    init (VDict hp_small) = Ok m /\
    hp_small !! "validation_data" = Some VNone /\
    _es m = Some (EarlyStopping "val_loss" "min" (VInt 3)) /\
    _chk m = Some (ModelCheckpoint (VStr "best.keras") "val_loss" 0 true "min").
Proof.
  eexists. split; [reflexivity |]. split; [vm_compute; reflexivity |].
  match goal with
  | |- _es ?m = _ /\ _ =>
      destruct (monitor_by_validation_key (VDict hp_small) m eq_refl) as (_ & Hv & _)
  end.
  destruct Hv as (Hes & Hchk);
    [exists VNone; cbn [hparams]; vm_compute; reflexivity |].
  split; [apply Hes | apply Hchk]; reflexivity.
Defined.

Lemma batch_size_edge_witness :
  exists m,
    init (VDict hp_zero) = Ok m /\
    _batch_size m = 32 /\
    batch_input_shape m = (32, 1) /\
    batch_output_shape m = (32, 1).
Proof.
  eexists. split; [reflexivity |].
  destruct (batch_size_edge (VDict hp_zero) _ eq_refl)
    as (_ & _ & _ & Hz & _ & Hi & Ho).
  assert (Hb := Hz ltac:(vm_compute; reflexivity)).
  rewrite Hi, Ho, Hb. repeat split.
Defined.


(** The empty dictionary has no [batch_size], and the object built from it
    has the batch size of the defaults, 16. *)
Lemma absent_batch_size_counterexample :
  exists m,
    init (VDict ∅) = Ok m /\
    (∅ : dict) !! "batch_size" = None /\
    _batch_size m = 16 /\
    ~ absent_batch_size_32 ∅ m.
Proof.
  eexists. split; [reflexivity |]. split; [reflexivity |].
  split; [vm_compute; reflexivity |].
  intros H. assert (E := H (or_introl eq_refl)). vm_compute in E. discriminate E.
Qed.

(** One training run on the defaults, saved and not exported. *)
Lemma train_model_steps_witness :
  exists m,
    init VNone = Ok m /\
    train_model (FW:=Toy.framework) [100; 8] [100; 1] None None 1
      (VStr "model") VNone [] (fresh m) =
      (Ok tt,
       {| self := with_net ["compile"; "fit"; "save"]
                    (with_history (Some toy_history) m);
          calls :=
            [ CompileKerasModel 16 (VFloat (float_lit 1 10000)) (VStr "Adam")
                (VStr "categorical_crossentropy") (VList [VStr "accuracy"])
                VNone (VFloat (float_lit 99 100)) (Some 100);
              FitKerasModel (FW:=Toy.framework) [100; 8] [100; 1] None None 16 (VInt 2)
                [ GarbageCollectionCallback;
                  EarlyStopping "val_loss" "min" (VInt 10);
                  EarlyStopAtCriteria (VStr "loss") (VStr "min")
                    (VFloat (float_lit 1 1000000)) ]
                1 [];
              SaveKerasModel toy_history (VStr "model") sample_hparams ] |}).
Proof.
  eexists. split; [reflexivity |].
  etransitivity.
  - apply (train_model_steps (FW:=Toy.framework) (fresh _) [100; 8] [100; 1]
             None None 1 (VStr "model") VNone [] 100 [8] toy_history
             ["compile"] ["compile"; "fit"] ["compile"; "fit"; "save"]
             ["compile"; "fit"; "save"]); reflexivity.
  - reflexivity.
Defined.

Lemma config_round_trip_witness :
  exists m w,
    init (VDict hp_small) = Ok m /\
    w = after toy_super_get_config
          [ DoTrainModel (FW:=Toy.framework) [10; 2] [10; 1] None None 0 VNone VNone [];
            DoSummary ] (fresh m) /\
    exists config m',
      fst (get_config toy_super_get_config w) = Ok config /\
      from_config config = Ok m' /\
      hparams m' = hp_small.
Proof.
  eexists. eexists. split; [reflexivity |]. split; [reflexivity |].
  destruct (config_round_trip toy_super_get_config (VDict hp_small) _
              [ DoTrainModel (FW:=Toy.framework) [10; 2] [10; 1] None None 0 VNone VNone [];
                DoSummary ] _ eq_refl eq_refl)
    as (config & m' & Hg & _ & Hf & _ & Hm).
  exists config, m'. split; [exact Hg |]. split; [exact Hf |].
  rewrite Hm. reflexivity.
Defined.

(** [validation_data] is a key of the default record and is not among the
    listed options. *)
Lemma exactly_listed_counterexample :
  sample_hparams !! "validation_data" = Some (VFloat (float_lit 1 10)) /\
  ~ In "validation_data" listed_options /\
  ~ exactly_listed sample_hparams.
Proof.
  assert (Hv : sample_hparams !! "validation_data" = Some (VFloat (float_lit 1 10)))
    by (vm_compute; reflexivity).
  assert (Hn : ~ In "validation_data" listed_options)
    by (simpl; intuition discriminate).
  split; [exact Hv |]. split; [exact Hn |].
  intros H. apply Hn. apply H. rewrite Hv. eauto.
Qed.

End Examples.

(** ** The constructor: failures, false arguments, keys it does not read *)

Section ConstructorMore.

Context `{FW : Framework}.

Lemma get_insert_ne (d : dict) (k k' : string) (v : pyval) :
  k <> k' -> get (<[k:=v]> d) k' = get d k'.
Proof. intros Hne. unfold get. rewrite lookup_insert_ne by exact Hne. reflexivity. Qed.

Lemma getitem_insert_ne (d : dict) (k k' : string) (v : pyval) :
  k <> k' -> getitem (<[k:=v]> d) k' = getitem d k'.
Proof. intros Hne. unfold getitem. rewrite lookup_insert_ne by exact Hne. reflexivity. Qed.

Lemma contains_insert_ne (d : dict) (k k' : string) (v : pyval) :
  k <> k' -> contains (<[k:=v]> d) k' = contains d k'.
Proof. intros Hne. unfold contains. rewrite lookup_insert_ne by exact Hne. reflexivity. Qed.

Lemma size_insert_nonzero (d : dict) (k : string) (v : pyval) :
  size (<[k:=v]> d) <> 0%nat.
Proof.
  intros H. apply map_size_empty_iff in H. exact (insert_non_empty d k v H).
Qed.

Lemma lookup_size_nonzero (d : dict) (k : string) (v : pyval) :
  d !! k = Some v -> size d <> 0%nat.
Proof.
  intros Hk H. apply map_size_empty_iff in H. rewrite H, lookup_empty in Hk.
  discriminate.
Qed.

Lemma init_raises_at (d : dict) (v : pyval) (e : exn) :
  d !! "batch_size" = Some v -> truthy v = true -> int int_of_str v = Raise e ->
  __init__ (VDict d) = @Raise (KerasSmartModel FW) e.
Proof.
  intros Hv Ht Hi. rewrite (init_dict d (lookup_size_nonzero d _ v Hv)).
  apply init_from_raises.
  assert (Hg : get d "batch_size" = v) by (unfold get; rewrite Hv; reflexivity).
  rewrite batch_size_of_int by (rewrite Hg; exact Ht). rewrite Hg. exact Hi.
Qed.

(** X1: when the entry [batch_size] is true and [int] of it raises, the
    constructor raises that same exception: [TypeError] for a list with an
    element, [OverflowError] for an infinite float, [ValueError] for a NaN,
    and on text whatever the interpreter's [int] raises. *)
Theorem init_raises_with_int (d : dict) :
  (forall (v : pyval) (e : exn),
     d !! "batch_size" = Some v -> truthy v = true ->
     int int_of_str v = Raise e ->
     __init__ (VDict d) = @Raise (KerasSmartModel FW) e) /\
  (forall (x : pyval) (l : list pyval),
     d !! "batch_size" = Some (VList (x :: l)) ->
     __init__ (VDict d) = @Raise (KerasSmartModel FW) TypeError) /\
  (forall sign : bool,
     d !! "batch_size" = Some (VFloat (S754_infinity sign)) ->
     __init__ (VDict d) = @Raise (KerasSmartModel FW) OverflowError) /\
  (d !! "batch_size" = Some (VFloat S754_nan) ->
   __init__ (VDict d) = @Raise (KerasSmartModel FW) ValueError).
Proof.
  split; [| split; [| split]].
  - intros v e. apply init_raises_at.
  - intros x l Hv. apply (init_raises_at d _ TypeError Hv); reflexivity.
  - intros sign Hv. apply (init_raises_at d _ OverflowError Hv); reflexivity.
  - intros Hv. apply (init_raises_at d _ ValueError Hv); reflexivity.
Qed.

(** X2: every false argument, not only [None] and the empty dictionary (0,
    the empty string, the empty list, [False]), is replaced by
    [sample_hparams]; a true number, string or list is stored and then has
    no [get]: [AttributeError]. *)
Theorem init_by_truth (arg : pyval) :
  (truthy arg = false ->
   __init__ arg = @__init__ FW (VDict sample_hparams)) /\
  (truthy arg = true ->
   match arg with
   | VBool _ | VInt _ | VFloat _ | VStr _ | VList _ =>
       __init__ arg = @Raise (KerasSmartModel FW) AttributeError
   | _ => True
   end).
Proof.
  split; intros Ht.
  - rewrite (init_default arg Ht).
    rewrite (init_dict sample_hparams) by (rewrite sample_hparams_size; discriminate).
    reflexivity.
  - unfold __init__. rewrite Ht. destruct arg; try exact I; reflexivity.
Qed.

(** X3: after construction the callbacks list and the callback attributes
    agree: the list holds the garbage-collection callback and exactly the
    callbacks kept in [_es], [_chk] and [_es_crit], each once. *)
Theorem callbacks_match_attributes (arg : pyval) (m : KerasSmartModel FW) :
  __init__ arg = Ok m ->
  (forall c : callback,
     In c (_callbacks m) <->
     c = GarbageCollectionCallback \/
     _es m = Some c \/ _chk m = Some c \/ _es_crit m = Some c) /\
  List.NoDup (_callbacks m).
Proof.
  intros H. apply init_inv in H as (H & _).
  apply init_from_inv in H as (_ & _ & Hes & Hchk & Hcrit & Hc & _).
  rewrite Hes, Hchk, Hcrit, Hc.
  unfold callbacks_of, es_of, chk_of, es_crit_of.
  destruct (truthy (get (hparams m) "early_stopping_patience_epochs")),
           (truthy (get (hparams m) "checkpoint_path")),
           (truthy (get (hparams m) "early_stopping_monitor"));
    cbn [append_if app]; (split; [intros c; cbn [In]; split |]).
  all: try (intros Hin; repeat destruct Hin as [Hin | Hin];
            try contradiction; try discriminate; subst; auto 6; fail).
  all: try (intros Hin; repeat destruct Hin as [Hin | Hin];
            try discriminate; try injection Hin as <-; auto 6; fail).
  all: repeat (apply List.NoDup_cons; [cbn [In]; intuition discriminate |]);
       apply List.NoDup_nil.
Qed.

Lemma init_from_insert_unread (d : dict) (k : string) (v : pyval)
    (m : KerasSmartModel FW) :
  ~ In k read_keys ->
  init_from d = Ok m ->
  init_from (<[k:=v]> d) = Ok (with_hparams (<[k:=v]> d) m).
Proof.
  intros Hk.
  assert (Hne : forall k', In k' read_keys -> k <> k') by (intros k' Hin ->; auto).
  unfold init_from.
  repeat match goal with
  | |- context [get (<[k:=v]> d) ?s] =>
      rewrite (get_insert_ne d k s v) by (apply Hne; cbn; tauto)
  | |- context [getitem (<[k:=v]> d) ?s] =>
      rewrite (getitem_insert_ne d k s v) by (apply Hne; cbn; tauto)
  | |- context [contains (<[k:=v]> d) ?s] =>
      rewrite (contains_insert_ne d k s v) by (apply Hne; cbn; tauto)
  end.
  fold (batch_size_of d).
  destruct (batch_size_of d) as [n | e]; cbn [bind]; [| discriminate].
  intros [= <-]. reflexivity.
Qed.

(** X4: added to a dictionary that already has an entry, an entry under a
    key the constructor does not look up ([model_name],
    [loss_function_params], any other name) changes nothing of the object
    but [hparams] itself.  Added to the empty dictionary it takes the
    constructor off the defaults: the batch size is 32 where it was 16, and
    the callbacks list holds the garbage-collection callback alone where it
    held three callbacks. *)
Theorem unread_key_no_effect (d : dict) (k : string) (v : pyval) :
  ~ In k read_keys ->
  (size d <> 0%nat ->
   forall m : KerasSmartModel FW,
     __init__ (VDict d) = Ok m ->
     __init__ (VDict (<[k:=v]> d)) = Ok (with_hparams (<[k:=v]> d) m)) /\
  (exists m0 m1 : KerasSmartModel FW,
     __init__ (VDict ∅) = Ok m0 /\
     __init__ (VDict (<[k:=v]> ∅)) = Ok m1 /\
     _batch_size m0 = 16 /\ _batch_size m1 = 32 /\
     List.length (_callbacks m0) = 3%nat /\
     _callbacks m1 = [GarbageCollectionCallback]).
Proof.
  intros Hk. split.
  - intros Hd m. rewrite (init_dict d Hd).
    rewrite (init_dict _ (size_insert_nonzero d k v)).
    apply init_from_insert_unread. exact Hk.
  - destruct (init_from_returns (FW:=FW) sample_hparams 16 batch_size_of_sample)
      as [m0 H0].
    assert (Hb : batch_size_of (FW:=FW) ∅ = Ok 32) by reflexivity.
    destruct (init_from_returns (FW:=FW) ∅ 32 Hb) as [mE HE].
    exists m0, (with_hparams (<[k:=v]> ∅) mE).
    split; [rewrite init_default by reflexivity; exact H0 |].
    split.
    { rewrite (init_dict _ (size_insert_nonzero ∅ k v)).
      apply init_from_insert_unread; assumption. }
    destruct (init_from_inv _ _ H0) as (Hb0 & _ & _ & _ & _ & Hc0 & _).
    destruct (init_from_inv _ _ HE) as (HbE & _ & _ & _ & _ & HcE & _).
    rewrite batch_size_of_sample in Hb0. rewrite Hb in HbE.
    cbn [_batch_size _callbacks with_hparams]. rewrite Hc0, HcE.
    split; [congruence |]. split; [congruence |].
    split; vm_compute; reflexivity.
Qed.

End ConstructorMore.

(** ** The methods: failures and what they leave behind *)

Section MethodsMore.

Context `{FW : Framework}.

Lemma compile_model_run (w : world FW) (N : Z) (r : result unit) (n : Net) :
  let m := self w in
  compile_keras_model (_batch_size m) (_learning_rate m) (_optimizer m)
    (_loss_function m) (_metrics_list m) (_optimizer_params m)
    (_exponential_decay_rate m) (Some N) (net m) = (r, n) ->
  compile_model (Some N) w =
    (r, {| self := with_net n m; calls := (calls w ++ [compile_event m N])%list |}).
Proof.
  intros m H. unfold compile_model.
  erewrite mbind_ok by reflexivity. apply on_net_ok. exact H.
Qed.

Lemma fit_model_ok (w : world FW) (x_train y_train : Tensor)
    (x_val y_val : option Tensor) (verbose : Z) (kwargs : list (string * pyval))
    (h : History) (n : Net) :
  let m := self w in
  fit_keras_model x_train y_train x_val y_val
    (_batch_size m) (_epochs m) (_callbacks m) verbose kwargs (net m) = (Ok h, n) ->
  fit_model x_train y_train x_val y_val verbose kwargs w =
    (Ok (Some h),
     {| self := with_net n (with_history (Some h) m);
        calls := (calls w ++ [fit_event m x_train y_train x_val y_val verbose kwargs])%list |}).
Proof.
  intros m H. unfold fit_model.
  erewrite mbind_ok by reflexivity.
  erewrite mbind_ok by (apply on_net_ok; exact H).
  erewrite mbind_ok by reflexivity. reflexivity.
Qed.

Lemma fit_model_raise (w : world FW) (x_train y_train : Tensor)
    (x_val y_val : option Tensor) (verbose : Z) (kwargs : list (string * pyval))
    (e : exn) (n : Net) :
  let m := self w in
  fit_keras_model x_train y_train x_val y_val
    (_batch_size m) (_epochs m) (_callbacks m) verbose kwargs (net m) = (Raise e, n) ->
  fit_model x_train y_train x_val y_val verbose kwargs w =
    (Raise e,
     {| self := with_net n m;
        calls := (calls w ++ [fit_event m x_train y_train x_val y_val verbose kwargs])%list |}).
Proof.
  intros m H. unfold fit_model.
  erewrite mbind_ok by reflexivity.
  erewrite mbind_raise by (apply on_net_ok; exact H). reflexivity.
Qed.

(** X5: [fit_model] calls [fit_keras_model] once, with the stored batch
    size, epoch count and callbacks list.  When the helper returns a history
    the method stores it in [history] and returns it; when the helper raises
    the method raises the same exception and [history] keeps the value it
    had (the network is left as the helper left it). *)
Theorem fit_model_outcomes (w : world FW) (x_train y_train : Tensor)
    (x_val y_val : option Tensor) (verbose : Z) (kwargs : list (string * pyval)) :
  let m := self w in
  let out := fit_keras_model x_train y_train x_val y_val
               (_batch_size m) (_epochs m) (_callbacks m) verbose kwargs (net m) in
  let res := fit_model x_train y_train x_val y_val verbose kwargs w in
  calls (snd res) =
    (calls w ++ [fit_event m x_train y_train x_val y_val verbose kwargs])%list /\
  net (self (snd res)) = snd out /\
  (forall h, fst out = Ok h ->
     fst res = Ok (Some h) /\ history (self (snd res)) = Some h) /\
  (forall e, fst out = Raise e ->
     fst res = Raise e /\ history (self (snd res)) = history m).
Proof.
  intros m out res.
  assert (Ho : out = (fst out, snd out)) by (destruct out; reflexivity).
  destruct (fst out) as [h | e] eqn:Hfst.
  - unfold res. rewrite (fit_model_ok w _ _ _ _ _ _ h (snd out) Ho).
    cbn [fst snd self calls net history with_net with_history].
    split; [reflexivity |]. split; [reflexivity |].
    split; [intros h' [= <-]; split; reflexivity | intros e' [=]].
  - unfold res. rewrite (fit_model_raise w _ _ _ _ _ _ e (snd out) Ho).
    cbn [fst snd self calls net history with_net with_history].
    split; [reflexivity |]. split; [reflexivity |].
    split; [intros h' [=] | intros e' [= <-]; split; reflexivity].
Qed.

Lemma train_model_plain (w : world FW) (x_train y_train : Tensor)
    (x_val y_val : option Tensor) (verbose : Z) (saveto export : pyval)
    (kwargs : list (string * pyval)) (N : Z) (rest : list Z) (h : History)
    (n1 n2 : Net) :
  let m := self w in
  shape x_train = N :: rest ->
  compile_keras_model (_batch_size m) (_learning_rate m) (_optimizer m)
    (_loss_function m) (_metrics_list m) (_optimizer_params m)
    (_exponential_decay_rate m) (Some N) (net m) = (Ok tt, n1) ->
  fit_keras_model x_train y_train x_val y_val
    (_batch_size m) (_epochs m) (_callbacks m) verbose kwargs n1 = (Ok h, n2) ->
  truthy saveto = false ->
  truthy export = false ->
  train_model x_train y_train x_val y_val verbose saveto export kwargs w =
    (Ok tt,
     {| self := with_net n2 (with_history (Some h) m);
        calls := (calls w ++
                  [ compile_event m N;
                    fit_event m x_train y_train x_val y_val verbose kwargs ])%list |}).
Proof.
  intros m Hs Hc Hf Hsave Hexp. unfold train_model.
  rewrite (mbind_ok _ _ w w N) by (unfold lift, shape0; rewrite Hs; reflexivity).
  erewrite mbind_ok by (apply compile_model_run; exact Hc).
  erewrite mbind_ok by (apply fit_model_ok; exact Hf).
  cbn [self calls]. rewrite Hsave, Hexp. unfold mbind, ret.
  cbn [self calls]. rewrite <- app_assoc. reflexivity.
Qed.

(** X6: when [x_train] has no dimension (an empty [shape]) [train_model]
    raises [IndexError] before anything is called: the object and the
    network are as they were. *)
Theorem train_model_no_dimension (w : world FW) (x_train y_train : Tensor)
    (x_val y_val : option Tensor) (verbose : Z) (saveto export : pyval)
    (kwargs : list (string * pyval)) :
  shape x_train = [] ->
  train_model x_train y_train x_val y_val verbose saveto export kwargs w =
    (Raise IndexError, w).
Proof.
  intros Hs. unfold train_model.
  apply mbind_raise. unfold lift, shape0. rewrite Hs. reflexivity.
Qed.

(** X7: when compiling raises, [train_model] raises the same exception
    after that one call: nothing is fitted, saved or exported and [history]
    keeps its value. *)
Theorem train_model_compile_raises (w : world FW) (x_train y_train : Tensor)
    (x_val y_val : option Tensor) (verbose : Z) (saveto export : pyval)
    (kwargs : list (string * pyval)) (N : Z) (rest : list Z) (e : exn) (n1 : Net) :
  let m := self w in
  shape x_train = N :: rest ->
  compile_keras_model (_batch_size m) (_learning_rate m) (_optimizer m)
    (_loss_function m) (_metrics_list m) (_optimizer_params m)
    (_exponential_decay_rate m) (Some N) (net m) = (Raise e, n1) ->
  train_model x_train y_train x_val y_val verbose saveto export kwargs w =
    (Raise e,
     {| self := with_net n1 m; calls := (calls w ++ [compile_event m N])%list |}).
Proof.
  intros m Hs Hc. unfold train_model.
  rewrite (mbind_ok _ _ w w N) by (unfold lift, shape0; rewrite Hs; reflexivity).
  apply mbind_raise. apply compile_model_run. exact Hc.
Qed.

(** X8: when fitting raises, [train_model] raises the same exception after
    the compile and the fit call: nothing is saved or exported, whatever
    [saveto] and [export] are, and [history] keeps its value. *)
Theorem train_model_fit_raises (w : world FW) (x_train y_train : Tensor)
    (x_val y_val : option Tensor) (verbose : Z) (saveto export : pyval)
    (kwargs : list (string * pyval)) (N : Z) (rest : list Z) (e : exn) (n1 n2 : Net) :
  let m := self w in
  shape x_train = N :: rest ->
  compile_keras_model (_batch_size m) (_learning_rate m) (_optimizer m)
    (_loss_function m) (_metrics_list m) (_optimizer_params m)
    (_exponential_decay_rate m) (Some N) (net m) = (Ok tt, n1) ->
  fit_keras_model x_train y_train x_val y_val
    (_batch_size m) (_epochs m) (_callbacks m) verbose kwargs n1 = (Raise e, n2) ->
  train_model x_train y_train x_val y_val verbose saveto export kwargs w =
    (Raise e,
     {| self := with_net n2 m;
        calls := (calls w ++
                  [ compile_event m N;
                    fit_event m x_train y_train x_val y_val verbose kwargs ])%list |}).
Proof.
  intros m Hs Hc Hf. unfold train_model.
  rewrite (mbind_ok _ _ w w N) by (unfold lift, shape0; rewrite Hs; reflexivity).
  erewrite mbind_ok by (apply compile_model_run; exact Hc).
  erewrite mbind_raise by (apply fit_model_raise; exact Hf).
  cbn [self calls]. rewrite <- app_assoc. reflexivity.
Qed.

(** X9: when saving raises, [train_model] raises the same exception after
    the compile, fit and save calls: the model is not exported even when
    [export] is given, and the history of the fit is already in
    [history]. *)
Theorem train_model_save_raises (w : world FW) (x_train y_train : Tensor)
    (x_val y_val : option Tensor) (verbose : Z) (saveto export : pyval)
    (kwargs : list (string * pyval)) (N : Z) (rest : list Z) (h : History)
    (e : exn) (n1 n2 n3 : Net) :
  let m := self w in
  shape x_train = N :: rest ->
  compile_keras_model (_batch_size m) (_learning_rate m) (_optimizer m)
    (_loss_function m) (_metrics_list m) (_optimizer_params m)
    (_exponential_decay_rate m) (Some N) (net m) = (Ok tt, n1) ->
  fit_keras_model x_train y_train x_val y_val
    (_batch_size m) (_epochs m) (_callbacks m) verbose kwargs n1 = (Ok h, n2) ->
  truthy saveto = true ->
  save_keras_model (history_of h) saveto (hparams m) n2 = (Raise e, n3) ->
  train_model x_train y_train x_val y_val verbose saveto export kwargs w =
    (Raise e,
     {| self := with_net n3 (with_history (Some h) m);
        calls := (calls w ++
                  [ compile_event m N;
                    fit_event m x_train y_train x_val y_val verbose kwargs;
                    SaveKerasModel (history_of h) saveto (hparams m) ])%list |}).
Proof.
  intros m Hs Hc Hf Ht Hsave. unfold train_model.
  rewrite (mbind_ok _ _ w w N) by (unfold lift, shape0; rewrite Hs; reflexivity).
  erewrite mbind_ok by (apply compile_model_run; exact Hc).
  erewrite mbind_ok by (apply fit_model_ok; exact Hf).
  cbn [self calls]. rewrite Ht.
  erewrite mbind_raise; cycle 1.
  { erewrite mbind_ok by reflexivity. erewrite mbind_ok by reflexivity.
    apply on_net_ok. exact Hsave. }
  cbn [self calls]. rewrite <- !app_assoc. reflexivity.
Qed.

(** X10: when exporting raises, [train_model] raises the same exception
    last of all: the network has been fitted, the history stored and, when
    [saveto] is given, the model saved. *)
Theorem train_model_export_raises (w : world FW) (x_train y_train : Tensor)
    (x_val y_val : option Tensor) (verbose : Z) (saveto export : pyval)
    (kwargs : list (string * pyval)) (N : Z) (rest : list Z) (h : History)
    (e : exn) (n1 n2 n3 n4 : Net) :
  let m := self w in
  shape x_train = N :: rest ->
  compile_keras_model (_batch_size m) (_learning_rate m) (_optimizer m)
    (_loss_function m) (_metrics_list m) (_optimizer_params m)
    (_exponential_decay_rate m) (Some N) (net m) = (Ok tt, n1) ->
  fit_keras_model x_train y_train x_val y_val
    (_batch_size m) (_epochs m) (_callbacks m) verbose kwargs n1 = (Ok h, n2) ->
  (if truthy saveto then save_keras_model (history_of h) saveto (hparams m) n2
   else (Ok tt, n2)) = (Ok tt, n3) ->
  truthy export = true ->
  export_keras_model export n3 = (Raise e, n4) ->
  train_model x_train y_train x_val y_val verbose saveto export kwargs w =
    (Raise e,
     {| self := with_net n4 (with_history (Some h) m);
        calls := (calls w ++
                  [ compile_event m N;
                    fit_event m x_train y_train x_val y_val verbose kwargs ] ++
                  (if truthy saveto
                   then [SaveKerasModel (history_of h) saveto (hparams m)] else []) ++
                  [ExportKerasModel export])%list |}).
Proof.
  intros m Hs Hc Hf Hsave Ht He. unfold train_model.
  rewrite (mbind_ok _ _ w w N) by (unfold lift, shape0; rewrite Hs; reflexivity).
  erewrite mbind_ok by (apply compile_model_run; exact Hc).
  erewrite mbind_ok by (apply fit_model_ok; exact Hf).
  cbn [self calls]. rewrite Ht.
  destruct (truthy saveto).
  - erewrite mbind_ok; cycle 1.
    { erewrite mbind_ok by reflexivity. erewrite mbind_ok by reflexivity.
      apply on_net_ok. exact Hsave. }
    erewrite mbind_raise by (apply on_net_ok; exact He).
    cbn [self calls]. rewrite <- !app_assoc. reflexivity.
  - injection Hsave as <-. erewrite mbind_ok by reflexivity.
    erewrite mbind_raise by (apply on_net_ok; exact He).
    cbn [self calls]. rewrite <- !app_assoc. reflexivity.
Qed.

(** X11: [plot_history] on an object that has not been fitted ([history]
    is [None]) raises [AttributeError] and does not reach the plotting
    helper; on a fitted object it passes the history of the fit and its own
    arguments to the helper, raises what the helper raises and otherwise
    returns [None], whatever the helper returned, and leaves the object as
    it was. *)
Theorem plot_history_outcomes (w : world FW)
    (metrics fig_title saveto close_after_finish : pyval) :
  (history (self w) = None ->
   plot_history metrics fig_title saveto close_after_finish w =
     (Raise AttributeError, w)) /\
  (forall h, history (self w) = Some h ->
   plot_history metrics fig_title saveto close_after_finish w =
     (match plot_keras_model_history (history_of h) metrics fig_title saveto
              close_after_finish with
      | Ok _ => Ok tt
      | Raise e => Raise e
      end,
      {| self := self w;
         calls := (calls w ++
                   [PlotKerasModelHistory (history_of h) metrics fig_title saveto
                      close_after_finish])%list |})).
Proof.
  split.
  - intros Hh. unfold plot_history. apply mbind_raise.
    unfold history_history. erewrite mbind_ok by reflexivity.
    rewrite Hh. reflexivity.
  - intros h Hh. unfold plot_history.
    erewrite mbind_ok; cycle 1.
    { unfold history_history. erewrite mbind_ok by reflexivity.
      rewrite Hh. reflexivity. }
    unfold mbind, outside, ret.
    destruct (plot_keras_model_history _ _ _ _ _); reflexivity.
Qed.

End MethodsMore.

(** ** The object over its lifetime, and its configuration *)

Section LifetimeMore.

Context `{FW : Framework}.
Variable super_get_config : KerasSmartModel FW -> result dict.

(** X12: whatever methods are called, in whatever order and whether they
    return or raise, the attributes set by the constructor keep their
    values: only [net] and [history] ever change. *)
Theorem settings_fixed (cs : list method) (w : world FW) :
  let m := self w in
  let m' := self (after super_get_config cs w) in
  settings m' = settings m /\
  hparams m' = hparams m /\
  _batch_size m' = _batch_size m /\
  _epochs m' = _epochs m /\
  _callbacks m' = _callbacks m /\
  batch_input_shape m' = batch_input_shape m /\
  batch_output_shape m' = batch_output_shape m.
Proof.
  intros m m'. assert (H : settings m' = settings m) by apply after_settings.
  split; [exact H |].
  split; [exact (f_equal hparams H) |].
  split; [exact (f_equal _batch_size H) |].
  split; [exact (f_equal _epochs H) |].
  split; [exact (f_equal _callbacks H) |].
  split; [exact (f_equal batch_input_shape H) | exact (f_equal batch_output_shape H)].
Qed.

(** X13: [history] is assigned by [fit_model] and [train_model] only:
    [call], [summary] and [compile_model] leave it as it is, and
    [get_config] and [plot_history] leave the whole object as it is, the
    network included. *)
Theorem history_set_by_fit_only (c : method) (w : world FW) :
  match c with
  | DoFitModel _ _ _ _ _ _ | DoTrainModel _ _ _ _ _ _ _ _ => True
  | DoGetConfig | DoPlotHistory _ _ _ _ =>
      self (run super_get_config c w) = self w
  | DoCall _ _ _ | DoSummary | DoCompileModel _ =>
      history (self (run super_get_config c w)) = history (self w)
  end.
Proof.
  destruct c; cbn [run]; try exact I.
  - unfold call, on_net. destruct (net_call _ _ _ _). reflexivity.
  - unfold summary, on_net. destruct (net_summary _). reflexivity.
  - unfold get_config, mbind, outside, read, ret.
    destruct (super_get_config (self w)); reflexivity.
  - unfold compile_model, mbind, read, on_net. cbn [fst snd self].
    destruct (compile_keras_model _ _ _ _ _ _ _ _ _). reflexivity.
  - unfold plot_history, history_history, mbind, read, outside, ret, raise.
    cbn [fst snd self].
    destruct (history (self w));
      [destruct (plot_keras_model_history _ _ _ _ _) |]; reflexivity.
Qed.

(** X14: [get_config] asks the framework for its configuration once.  When
    that raises, [get_config] raises the same exception; otherwise it
    returns that configuration with the key ["hparams"] set to the object's
    dictionary, replacing an entry the framework may have put there, every
    other key as the framework gave it.  The object does not change. *)
Theorem get_config_outcomes (w : world FW) :
  let w' := {| self := self w; calls := (calls w ++ [SuperGetConfig])%list |} in
  (forall e, super_get_config (self w) = Raise e ->
     get_config super_get_config w = (Raise e, w')) /\
  (forall base, super_get_config (self w) = Ok base ->
     exists config,
       get_config super_get_config w = (Ok config, w') /\
       config !! "hparams" = Some (VDict (hparams (self w))) /\
       (forall k, k <> "hparams" -> config !! k = base !! k)).
Proof.
  intros w'. split.
  - intros e He. unfold get_config, mbind, outside. rewrite He. reflexivity.
  - intros base Hb. exists (<["hparams" := VDict (hparams (self w))]> base).
    split; [| split].
    + unfold get_config, mbind, outside, read, ret. rewrite Hb. reflexivity.
    + apply lookup_insert_eq.
    + intros k Hk. apply lookup_insert_ne. congruence.
Qed.

End LifetimeMore.

Section ConfigMore.

Context `{FW : Framework}.

(** X15: [from_config] looks at the key ["hparams"] alone: without it the
    call raises [KeyError]; a false value under it ([None], an empty
    dictionary) gives the object of the defaults; every other key of the
    configuration is ignored. *)
Theorem from_config_outcomes (config : dict) :
  (config !! "hparams" = None ->
   from_config config = @Raise (KerasSmartModel FW) (KeyError "hparams")) /\
  (forall v, config !! "hparams" = Some v -> truthy v = false ->
   from_config config = @__init__ FW (VDict sample_hparams)) /\
  (forall k v, k <> "hparams" ->
   @from_config FW (<[k:=v]> config) = from_config config).
Proof.
  split; [| split].
  - intros Hn. unfold from_config, getitem. rewrite Hn. reflexivity.
  - intros v Hv Ht. unfold from_config, getitem. rewrite Hv. cbn [bind].
    rewrite (init_default v Ht).
    rewrite (init_dict sample_hparams) by (rewrite sample_hparams_size; discriminate).
    reflexivity.
  - intros k v Hk. unfold from_config. rewrite (getitem_insert_ne config k _ v Hk).
    reflexivity.
Qed.

Lemma mbind_inv_ok {A B : Type} (c : world FW -> result A * world FW)
    (k : A -> world FW -> result B * world FW) (w w' : world FW) (b : B) :
  mbind c k w = (Ok b, w') ->
  exists a w1, c w = (Ok a, w1) /\ k a w1 = (Ok b, w').
Proof.
  unfold mbind. destruct (c w) as [[a | e] w1]; [eauto | discriminate].
Qed.

Lemma on_net_history {A : Type} (e : event) (f : Net -> result A * Net)
    (w w' : world FW) (r : result A) :
  on_net e f w = (r, w') -> history (self w') = history (self w).
Proof.
  unfold on_net. destruct (f (net (self w))) as [r' n]. intros [= _ <-]. reflexivity.
Qed.

(** X16: a [train_model] that returns leaves a history in [history], so a
    [plot_history] right after it does not fail for want of one: it reaches
    the plotting helper with that history, raises what the helper raises and
    otherwise returns [None]. *)
Theorem train_then_plot (w w' : world FW) (x_train y_train : Tensor)
    (x_val y_val : option Tensor) (verbose : Z) (saveto export : pyval)
    (kwargs : list (string * pyval)) (u : unit)
    (metrics fig_title psaveto close_after_finish : pyval) :
  train_model x_train y_train x_val y_val verbose saveto export kwargs w = (Ok u, w') ->
  exists h : History,
    history (self w') = Some h /\
    plot_history metrics fig_title psaveto close_after_finish w' =
      (match plot_keras_model_history (history_of h) metrics fig_title psaveto
               close_after_finish with
       | Ok _ => Ok tt
       | Raise e => Raise e
       end,
       {| self := self w';
          calls := (calls w' ++
                    [PlotKerasModelHistory (history_of h) metrics fig_title psaveto
                       close_after_finish])%list |}).
Proof.
  intros H. unfold train_model in H.
  apply mbind_inv_ok in H as (N & w0 & _ & H).
  apply mbind_inv_ok in H as (u1 & w1 & _ & H).
  apply mbind_inv_ok in H as (oh & w2 & Hfit & H).
  apply mbind_inv_ok in H as (u2 & w3 & Hsave & H).
  apply mbind_inv_ok in H as (u3 & w4 & Hexp & H).
  injection H as _ <-.
  assert (H2 : exists h, history (self w2) = Some h).
  { unfold fit_model in Hfit.
    apply mbind_inv_ok in Hfit as (m1 & wa & _ & Hfit).
    apply mbind_inv_ok in Hfit as (h & wb & _ & Hfit).
    apply mbind_inv_ok in Hfit as (u4 & wc & Hset & Hfit).
    unfold set_history in Hset. injection Hset as _ <-.
    unfold read in Hfit. injection Hfit as _ <-. exists h. reflexivity. }
  destruct H2 as [h H2].
  assert (H3 : history (self w3) = Some h).
  { destruct (truthy saveto).
    - apply mbind_inv_ok in Hsave as (hh & wa & Hh & Hsave).
      apply mbind_inv_ok in Hsave as (hp & wb & Hr & Hsave).
      apply on_net_history in Hsave. rewrite Hsave.
      unfold read in Hr. injection Hr as _ <-.
      unfold history_history in Hh.
      apply mbind_inv_ok in Hh as (o & wc & Hr & Hh).
      unfold read in Hr. injection Hr as _ <-.
      destruct o; [| discriminate]. unfold ret in Hh. injection Hh as _ <-. exact H2.
    - unfold ret in Hsave. injection Hsave as _ <-. exact H2. }
  assert (H4 : history (self w4) = Some h).
  { destruct (truthy export).
    - apply on_net_history in Hexp. rewrite Hexp. exact H3.
    - unfold ret in Hexp. injection Hexp as _ <-. exact H3. }
  exists h. split; [exact H4 |].
  unfold plot_history, history_history, mbind, read, outside, ret.
  cbn [fst snd]. rewrite H4.
  destruct (plot_keras_model_history _ _ _ _ _); reflexivity.
Qed.

End ConfigMore.

(** ** The failures at work *)

Module ExamplesMore.

Lemma init_raises_with_int_witness :
  @__init__ Toy.framework (VDict hp_bad) = Raise TypeError.
Proof.
  apply (proj1 (proj2 (init_raises_with_int (FW:=Toy.framework) hp_bad))
           (VInt 16) []).
  vm_compute. reflexivity.
Defined.

Lemma init_by_truth_witness :
  @__init__ Toy.framework (VList []) = __init__ (VDict sample_hparams) /\
  @__init__ Toy.framework (VStr "Adam") = Raise AttributeError.
Proof.
  split.
  - apply (proj1 (init_by_truth (FW:=Toy.framework) (VList []))). reflexivity.
  - apply (proj2 (init_by_truth (FW:=Toy.framework) (VStr "Adam"))). reflexivity.
Defined.

Lemma callbacks_match_attributes_witness :
  exists m,
    @__init__ Toy.framework (VDict hp_all) = Ok m /\
    List.NoDup (_callbacks m) /\
    In (ModelCheckpoint (VStr "ckpt") "loss" 0 true "min") (_callbacks m).
Proof.
  eexists. split; [reflexivity |].
  destruct (callbacks_match_attributes (FW:=Toy.framework) (VDict hp_all) _ eq_refl)
    as (Hin & Hnd).
  split; [exact Hnd |].
  apply (proj2 (Hin _)). right. right. left. reflexivity.
Defined.

Lemma unread_key_no_effect_witness :
  exists m,
    @__init__ Toy.framework (VDict hp_sgd) = Ok m /\
    __init__ (VDict (<["model_name" := VStr "mlp"]> hp_sgd)) =
      Ok (with_hparams (<["model_name" := VStr "mlp"]> hp_sgd) m).
Proof.
  eexists. split; [reflexivity |].
  apply (proj1 (unread_key_no_effect (FW:=Toy.framework) hp_sgd "model_name"
                  (VStr "mlp") ltac:(cbn; intuition discriminate))).
  - vm_compute. discriminate.
  - reflexivity.
Defined.

(** Fitting without a number of epochs fails and leaves no history. *)
Lemma fit_model_outcomes_witness :
  exists m,
    @__init__ Strict.framework (VDict hp_sgd) = Ok m /\
    let res := fit_model (FW:=Strict.framework) [4; 2] [4; 1] None None 0 [] (fresh m) in
    fst res = Raise (FrameworkError "epochs") /\
    history (self (snd res)) = None /\
    net (self (snd res)) = ["fit started"].
Proof.
  eexists. split; [reflexivity |]. intros res.
  match goal with
  | res := fit_model _ _ _ _ _ _ (fresh ?m) |- _ =>
      destruct (fit_model_outcomes (FW:=Strict.framework) (fresh m) [4; 2] [4; 1]
                  None None 0 []) as (_ & Hn & _ & He)
  end.
  destruct (He (FrameworkError "epochs") eq_refl) as (Hr & Hh).
  split; [exact Hr |]. split; [exact Hh | exact Hn].
Defined.

Lemma train_model_no_dimension_witness :
  exists m,
    @__init__ Toy.framework VNone = Ok m /\
    train_model (FW:=Toy.framework) [] [] None None 1 (VStr "model") VNone []
      (fresh m) = (Raise IndexError, fresh m).
Proof.
  eexists. split; [reflexivity |].
  apply (train_model_no_dimension (FW:=Toy.framework)). reflexivity.
Defined.

(** Without an optimizer the run stops at the compile call. *)
Lemma train_model_compile_raises_witness :
  exists m,
    @__init__ Strict.framework (VDict hp_small) = Ok m /\
    train_model (FW:=Strict.framework) [4; 2] [4; 1] None None 1
      (VStr "model") (VStr "model.model") [] (fresh m) =
      (Raise (FrameworkError "optimizer"),
       {| self := with_net Sequential m; calls := ([] ++ [compile_event m 4])%list |}).
Proof.
  eexists. split; [reflexivity |].
  apply (train_model_compile_raises (FW:=Strict.framework) (fresh _) [4; 2] [4; 1]
           None None 1 (VStr "model") (VStr "model.model") [] 4 [2]);
    reflexivity.
Defined.

(** Without a number of epochs the run stops at the fit call, though a
    path to save to is given. *)
Lemma train_model_fit_raises_witness :
  exists m,
    @__init__ Strict.framework (VDict hp_sgd) = Ok m /\
    train_model (FW:=Strict.framework) [4; 2] [4; 1] None None 1
      (VStr "model") VNone [] (fresh m) =
      (Raise (FrameworkError "epochs"),
       {| self := with_net (FW:=Strict.framework) ["compile"; "fit started"] m;
          calls := ([] ++ [ compile_event m 4;
                            fit_event m [4; 2] [4; 1] None None 1 [] ])%list |}).
Proof.
  eexists. split; [reflexivity |].
  apply (train_model_fit_raises (FW:=Strict.framework) (fresh _) [4; 2] [4; 1]
           None None 1 (VStr "model") VNone [] 4 [2] _ ["compile"]);
    reflexivity.
Defined.

Lemma train_model_save_raises_witness :
  exists m,
    @__init__ Strict.framework (VDict hp_sgd_epochs) = Ok m /\
    train_model (FW:=Strict.framework) [4; 2] [4; 1] None None 1
      (VStr "/") (VStr "model.model") [] (fresh m) =
      (Raise (FrameworkError "saveto"),
       {| self := with_net (FW:=Strict.framework) ["compile"; "fit"] (with_history (FW:=Strict.framework) (Some Toy.toy_history) m);
          calls := ([] ++ [ compile_event m 4;
                            fit_event m [4; 2] [4; 1] None None 1 [];
                            SaveKerasModel (FW:=Strict.framework) Toy.toy_history (VStr "/") hp_sgd_epochs
                          ])%list |}).
Proof.
  eexists. split; [reflexivity |].
  match goal with
  | |- train_model _ _ _ _ _ _ _ _ (fresh ?m) = _ =>
      exact (train_model_save_raises (FW:=Strict.framework) (fresh m) [4; 2] [4; 1]
               None None 1 (VStr "/") (VStr "model.model") [] 4 [2] Toy.toy_history
               (FrameworkError "saveto") ["compile"] ["compile"; "fit"]
               ["compile"; "fit"] eq_refl eq_refl eq_refl eq_refl eq_refl)
  end.
Defined.

Lemma train_model_export_raises_witness :
  exists m,
    @__init__ Strict.framework (VDict hp_sgd_epochs) = Ok m /\
    train_model (FW:=Strict.framework) [4; 2] [4; 1] None None 1
      VNone (VStr "/") [] (fresh m) =
      (Raise (FrameworkError "export"),
       {| self := with_net (FW:=Strict.framework) ["compile"; "fit"] (with_history (FW:=Strict.framework) (Some Toy.toy_history) m);
          calls := ([] ++ [ compile_event m 4;
                            fit_event m [4; 2] [4; 1] None None 1 [] ] ++ [] ++
                          [ExportKerasModel (VStr "/")])%list |}).
Proof.
  eexists. split; [reflexivity |].
  match goal with
  | |- train_model _ _ _ _ _ _ _ _ (fresh ?m) = _ =>
      exact (train_model_export_raises (FW:=Strict.framework) (fresh m) [4; 2] [4; 1]
               None None 1 VNone (VStr "/") [] 4 [2] Toy.toy_history
               (FrameworkError "export") ["compile"] ["compile"; "fit"]
               ["compile"; "fit"] ["compile"; "fit"]
               eq_refl eq_refl eq_refl eq_refl eq_refl eq_refl)
  end.
Defined.

Lemma plot_history_outcomes_witness :
  exists m,
    @__init__ Toy.framework VNone = Ok m /\
    plot_history (FW:=Toy.framework) (VList [VStr "loss"]) (VStr "model loss")
      VNone (VBool true) (fresh m) = (Raise AttributeError, fresh m).
Proof.
  eexists. split; [reflexivity |].
  apply (proj1 (plot_history_outcomes (FW:=Toy.framework) (fresh _)
                  (VList [VStr "loss"]) (VStr "model loss") VNone (VBool true))).
  reflexivity.
Defined.

Lemma get_config_outcomes_witness :
  exists m,
    @__init__ Strict.framework VNone = Ok m /\
    get_config Strict.no_super_get_config (fresh m) =
      (Raise (FrameworkError "get_config"),
       {| self := m; calls := ([] ++ [SuperGetConfig])%list |}).
Proof.
  eexists. split; [reflexivity |].
  apply (proj1 (get_config_outcomes (FW:=Strict.framework)
                  Strict.no_super_get_config (fresh _))).
  reflexivity.
Defined.

Lemma from_config_outcomes_witness :
  @from_config Toy.framework (<["name" := VStr "mlp"]> ∅) = Raise (KeyError "hparams") /\
  @from_config Toy.framework (<["hparams" := VDict ∅]> ∅) =
    __init__ (VDict sample_hparams).
Proof.
  split.
  - apply (proj1 (from_config_outcomes (FW:=Toy.framework) (<["name" := VStr "mlp"]> ∅))).
    vm_compute. reflexivity.
  - apply (proj1 (proj2 (from_config_outcomes (FW:=Toy.framework)
                           (<["hparams" := VDict ∅]> ∅))) (VDict ∅)).
    + vm_compute. reflexivity.
    + reflexivity.
Defined.

Lemma train_then_plot_witness :
  exists m,
    @__init__ Toy.framework (VDict hp_sgd_epochs) = Ok m /\
    let run := train_model (FW:=Toy.framework) [4; 2] [4; 1] None None 1
                 VNone VNone [] (fresh m) in
    fst run = Ok tt /\
    history (self (snd run)) = Some Toy.toy_history /\
    fst (plot_history (FW:=Toy.framework) (VList [VStr "loss"]) (VStr "model loss")
           VNone (VBool true) (snd run)) = Ok tt.
Proof.
  eexists. split; [reflexivity |]. intros run.
  match goal with
  | run := train_model _ _ _ _ _ _ _ _ (fresh ?m) |- _ =>
      pose proof (train_model_plain (FW:=Toy.framework) (fresh m) [4; 2] [4; 1]
                    None None 1 VNone VNone [] 4 [2] Toy.toy_history
                    ["compile"] ["compile"; "fit"]
                    eq_refl eq_refl eq_refl eq_refl eq_refl) as Hrun
  end.
  destruct (train_then_plot (FW:=Toy.framework) _ _ _ _ _ _ _ _ _ _ _
              (VList [VStr "loss"]) (VStr "model loss") VNone (VBool true) Hrun)
    as (h & Hh & Hp).
  unfold run. rewrite Hrun. cbn [fst snd].
  split; [reflexivity |]. split; [reflexivity |].
  rewrite Hp. reflexivity.
Defined.

End ExamplesMore.
